(** * Health_monitor: the sampling-and-derived-metric engine

    A shallow embedding of the two programs of the repository,

      - [system_health_monitor.py] (class [ComprehensiveSystemHealthMonitor],
        the terminal dashboard), module [Monitor] below, and
      - [system_health_01.py] (class [SystemHealthGUI], the desktop GUI),
        module [Gui] below,

    restricted to the parts that compute something: the rate computation
    from cumulative counters, the threshold classifier, the rolling history
    and the trend analysis, and the order in which one dashboard refresh
    calls them.

    Numbers.  The readings ([psutil] percentages, temperatures, wall-clock
    times) are Python floats and the thresholds and I/O counters are Python
    ints.  In [Monitor] and [Gui] readings and times are rationals [Q] with
    exact arithmetic, counters are [Z].  Python compares a float with an
    int exactly, so the classifier is modelled without loss on finite
    readings; the quotients and the products by [1.1] and [0.9] are taken
    exactly there, where Python rounds to the nearest double.  Module
    [Binary64] is the terminal monitor's engine again with IEEE 754
    double-precision numbers and the interpreter's rounding; what depends
    on the rounding is stated about it. *)

From Stdlib Require Import ZArith QArith Qfield List String Bool Lia Arith Lqa.
From Stdlib Require Import PrimFloat SpecFloat FloatOps.
Import ListNotations.

Local Open Scope string_scope.
Local Open Scope Q_scope.

(** ** Python's comparison operators on numbers *)

Module Py.

Definition ge (x y : Q) : bool := Qle_bool y x.          (* x >= y *)
Definition le (x y : Q) : bool := Qle_bool x y.          (* x <= y *)
Definition gt (x y : Q) : bool := negb (Qle_bool x y).   (* x >  y *)
Definition lt (x y : Q) : bool := negb (Qle_bool y x).   (* x <  y *)

(** [sum(l)]: the left-to-right sum that starts from [0]. *)
Definition sum (l : list Q) : Q := fold_left Qplus l 0.

(** [l[-n:]] for [n > 0]: the last [n] elements, all of [l] when it is
    shorter. *)
Definition last_slice {A} (n : nat) (l : list A) : list A :=
  skipn (List.length l - n) l.

(** [len(l)] as a number. *)
Definition len {A} (l : list A) : Z := Z.of_nat (List.length l).

End Py.

(** ** class HealthStatus

    Both files declare the five levels with the same string values; the
    colour constants differ between the files and are kept symbolic. *)

Inductive HealthStatus : Set :=
  | CRITICAL
  | WARNING
  | CAUTION
  | HEALTHY
  | UNKNOWN.

Inductive Color : Set :=
  | COLOR_CRITICAL
  | COLOR_WARNING
  | COLOR_CAUTION
  | COLOR_HEALTHY
  | COLOR_UNKNOWN
  | COLOR_NEUTRAL.

(** The severity order of the bands.  [UNKNOWN] is not a severity level; it
    is given the number [0], below every level a present value can get. *)
Definition severity (s : HealthStatus) : nat :=
  match s with
  | UNKNOWN => 0
  | HEALTHY => 1
  | CAUTION => 2
  | WARNING => 3
  | CRITICAL => 4
  end.

(** A dictionary with string keys and integer values, in declaration
    order.  Every key the programs look up is a key of the table; the
    value returned for a missing key (where Python raises [KeyError]) is
    never used. *)
Fixpoint getitem (d : list (string * Z)) (key : string) : Q :=
  match d with
  | [] => 0
  | (k, v) :: d' => if String.eqb k key then inject_Z v else getitem d' key
  end.

(** The result of [analyze_trend]: its five return strings. *)
Inductive Trend : Set :=
  | NoData             (* "No data" *)
  | InsufficientData   (* "Insufficient data" *)
  | Increasing         (* "Increasing" *)
  | Decreasing         (* "Decreasing" *)
  | Stable.            (* "Stable" *)

(** Two cumulative counters read together: [read_bytes]/[write_bytes] of
    [psutil.disk_io_counters()], or [bytes_sent]/[bytes_recv] of
    [psutil.net_io_counters()]. *)
Record disk_io : Set := mk_disk_io {
  read_bytes : Z;
  write_bytes : Z
}.

Record net_io : Set := mk_net_io {
  bytes_sent : Z;
  bytes_recv : Z
}.

(** The expression both files write four times,
    [(current - previous) / time_delta if time_delta > 0 else 0]. *)
Definition rate (current previous : Z) (time_delta : Q) : Q :=
  if Py.gt time_delta 0
  then inject_Z (current - previous) / time_delta
  else 0.

(** ** Calls that can raise

    The exception classes the two files name in their handlers or can meet
    in the modelled code.  [PermissionError] is a subclass of [OSError];
    every class below is a subclass of [Exception]. *)

Inductive exn : Set :=
  | OSError
  | AttributeError
  | PermissionError
  | IndexError
  | TypeError
  | OtherException.

(** What a call does: it returns a value or raises. *)
Inductive outcome (A : Type) : Type :=
  | Returns (a : A)
  | Raises (e : exn).

Arguments Returns {A} a.
Arguments Raises {A} e.

(** A dict in insertion order; [dict_get d key] is [d[key]] when
    [key in d], and [None] when [key not in d]. *)
Fixpoint dict_get {A : Type} (d : list (string * A)) (key : string)
  : option A :=
  match d with
  | [] => None
  | (k, v) :: d' => if String.eqb k key then Some v else dict_get d' key
  end.

(** [int(x)] on a number: truncation towards zero. *)
Definition py_int (x : Q) : Z := Z.quot (Qnum x) (Zpos (Qden x)).

(** ** The uptime text (get_system_info, and inline in the GUI)

    [datetime.now() - boot_time] is a [timedelta], which Python keeps
    normalised: [0 <= seconds < 86400] and [0 <= microseconds < 1000000],
    with the sign carried by [days]. *)
Record timedelta : Set := mk_timedelta {
  days : Z;
  seconds : Z;
  microseconds : Z
}.

(** The [timedelta] of a difference of [us] microseconds. *)
Definition timedelta_of_microseconds (us : Z) : timedelta :=
  {| days := us / 86400000000;
     seconds := (us / 1000000) mod 86400;
     microseconds := us mod 1000000 |}%Z.

(** The three numbers of
    [f"{uptime.days}d {uptime.seconds // 3600}h {(uptime.seconds % 3600) // 60}m"]. *)
Definition uptime_fields (uptime : timedelta) : Z * Z * Z :=
  (days uptime, seconds uptime / 3600, (seconds uptime mod 3600) / 60)%Z.

(** ** system_health_monitor.py *)

Module Monitor.

Definition THRESHOLDS : list (string * Z) :=
  [ ("cpu_healthy", 30); ("cpu_caution", 60);
    ("cpu_warning", 80); ("cpu_critical", 90);
    ("memory_healthy", 50); ("memory_caution", 70);
    ("memory_warning", 85); ("memory_critical", 95);
    ("disk_healthy", 50); ("disk_caution", 70);
    ("disk_warning", 85); ("disk_critical", 95);
    ("temp_healthy", 50); ("temp_caution", 70);
    ("temp_warning", 85); ("temp_critical", 100);
    ("battery_healthy", 80); ("battery_caution", 50);
    ("battery_warning", 20); ("battery_critical", 10);
    ("disk_io_warning", 1000); ("network_warning", 100);
    ("process_cpu_warning", 40); ("process_memory_warning", 30) ]%Z.

(** [self.health_history]: a dict with the four keys below, each holding
    a list that is appended to in place.  No key is ever added or
    removed, so the dict is a record of its four lists. *)
Record health_history_t : Type := mk_history {
  h_cpu : list Q;
  h_memory : list Q;
  h_disk : list Q;
  h_temperature : list Q
}.

(** The fields of the monitor that the engine reads and writes. *)
Record state : Type := mk_state {
  prev_disk_io : disk_io;
  prev_net_io : net_io;
  prev_time : Q;
  health_history : health_history_t;
  history_max : nat
}.

(** [__init__]: the counters and the clock are read once. *)
Definition init (d : disk_io) (n : net_io) (now : Q) : state :=
  {| prev_disk_io := d;
     prev_net_io := n;
     prev_time := now;
     health_history := mk_history [] [] [] [];
     history_max := 5 |}.

Definition get_status_and_color (metric_type : string) (value : option Q)
  : HealthStatus * Color :=
  match value with
  | None => (UNKNOWN, COLOR_UNKNOWN)
  | Some value =>
    if String.eqb metric_type "cpu" then
      if Py.ge value (getitem THRESHOLDS "cpu_critical")
      then (CRITICAL, COLOR_CRITICAL)
      else if Py.ge value (getitem THRESHOLDS "cpu_warning")
      then (WARNING, COLOR_WARNING)
      else if Py.ge value (getitem THRESHOLDS "cpu_caution")
      then (CAUTION, COLOR_CAUTION)
      else (HEALTHY, COLOR_HEALTHY)
    else if String.eqb metric_type "memory" then
      if Py.ge value (getitem THRESHOLDS "memory_critical")
      then (CRITICAL, COLOR_CRITICAL)
      else if Py.ge value (getitem THRESHOLDS "memory_warning")
      then (WARNING, COLOR_WARNING)
      else if Py.ge value (getitem THRESHOLDS "memory_caution")
      then (CAUTION, COLOR_CAUTION)
      else (HEALTHY, COLOR_HEALTHY)
    else if String.eqb metric_type "disk" then
      if Py.ge value (getitem THRESHOLDS "disk_critical")
      then (CRITICAL, COLOR_CRITICAL)
      else if Py.ge value (getitem THRESHOLDS "disk_warning")
      then (WARNING, COLOR_WARNING)
      else if Py.ge value (getitem THRESHOLDS "disk_caution")
      then (CAUTION, COLOR_CAUTION)
      else (HEALTHY, COLOR_HEALTHY)
    else if String.eqb metric_type "temperature" then
      if Py.ge value (getitem THRESHOLDS "temp_critical")
      then (CRITICAL, COLOR_CRITICAL)
      else if Py.ge value (getitem THRESHOLDS "temp_warning")
      then (WARNING, COLOR_WARNING)
      else if Py.ge value (getitem THRESHOLDS "temp_caution")
      then (CAUTION, COLOR_CAUTION)
      else (HEALTHY, COLOR_HEALTHY)
    else if String.eqb metric_type "battery" then
      if Py.le value (getitem THRESHOLDS "battery_critical")
      then (CRITICAL, COLOR_CRITICAL)
      else if Py.le value (getitem THRESHOLDS "battery_warning")
      then (WARNING, COLOR_WARNING)
      else if Py.le value (getitem THRESHOLDS "battery_caution")
      then (CAUTION, COLOR_CAUTION)
      else (HEALTHY, COLOR_HEALTHY)
    else (HEALTHY, COLOR_HEALTHY)
  end.

(** The three lines each collector runs on its history list:
    [history.append(x)], then [history.pop(0)] if
    [len(history) > self.history_max]. *)
Definition append_pop0 (history_max : nat) (history : list Q) (x : Q)
  : list Q :=
  let history := (history ++ [x])%list in
  if (history_max <? List.length history)%nat then tl history else history.

(** [self.health_history.get(key, default)]. *)
Definition get (h : health_history_t) (key : string) (default : list Q)
  : list Q :=
  if String.eqb key "cpu" then h_cpu h
  else if String.eqb key "memory" then h_memory h
  else if String.eqb key "disk" then h_disk h
  else if String.eqb key "temperature" then h_temperature h
  else default.

Definition analyze_trend (self : state) (metric_type : string)
           (current_value : option Q) : Trend :=
  match current_value with
  | None => NoData
  | Some current_value =>
    let history := get (health_history self) metric_type [] in
    if (Py.len history <? 2)%Z then InsufficientData
    else
      let avg_recent :=
        Py.sum (Py.last_slice 3 history)
        / inject_Z (Z.min 3 (Py.len history)) in
      if Py.gt current_value (avg_recent * 1.1) then Increasing
      else if Py.lt current_value (avg_recent * 0.9) then Decreasing
      else Stable
  end.

(** What [get_cpu_metrics] returns, without the fields it only passes
    through from [psutil] (per-core load, frequency, core counts). *)
Record cpu_metrics : Type := mk_cpu {
  average : Q;
  temperature : option Q
}.

(** [get_cpu_metrics]; [cpu_avg] is [psutil.cpu_percent(interval=0.1)]
    and [temp] is the result of [self.get_cpu_temperature()]. *)
Definition get_cpu_metrics (self : state) (cpu_avg : Q) (temp : option Q)
  : cpu_metrics * state :=
  let h := health_history self in
  let h := mk_history (append_pop0 (history_max self) (h_cpu h) cpu_avg)
                      (h_memory h) (h_disk h) (h_temperature h) in
  let h :=
    match temp with
    | Some t =>
        mk_history (h_cpu h) (h_memory h) (h_disk h)
                   (append_pop0 (history_max self) (h_temperature h) t)
    | None => h
    end in
  (mk_cpu cpu_avg temp,
   mk_state (prev_disk_io self) (prev_net_io self) (prev_time self)
            h (history_max self)).

(** [get_memory_metrics]; [mem_percent] is
    [psutil.virtual_memory().percent], the one field the engine uses. *)
Definition get_memory_metrics (self : state) (mem_percent : Q)
  : Q * state :=
  let h := health_history self in
  let h := mk_history (h_cpu h)
                      (append_pop0 (history_max self) (h_memory h) mem_percent)
                      (h_disk h) (h_temperature h) in
  (mem_percent,
   mk_state (prev_disk_io self) (prev_net_io self) (prev_time self)
            h (history_max self)).

Record disk_metrics : Type := mk_disk {
  percent : Q;
  read_speed : Q;
  write_speed : Q
}.

(** [get_disk_metrics]; [disk_usage_percent], [current_disk_io] and
    [current_time] are what [psutil.disk_usage], [psutil.disk_io_counters]
    and [time.time] return. *)
Definition get_disk_metrics (self : state) (disk_usage_percent : Q)
           (current_disk_io : disk_io) (current_time : Q)
  : disk_metrics * state :=
  let time_delta := current_time - prev_time self in
  let disk_read_speed :=
    rate (read_bytes current_disk_io) (read_bytes (prev_disk_io self))
         time_delta in
  let disk_write_speed :=
    rate (write_bytes current_disk_io) (write_bytes (prev_disk_io self))
         time_delta in
  let h := health_history self in
  let h := mk_history (h_cpu h) (h_memory h)
                      (append_pop0 (history_max self) (h_disk h)
                                   disk_usage_percent)
                      (h_temperature h) in
  (mk_disk disk_usage_percent disk_read_speed disk_write_speed,
   mk_state current_disk_io (prev_net_io self) (prev_time self)
            h (history_max self)).

Record net_metrics : Type := mk_net {
  upload_speed : Q;
  download_speed : Q
}.

Definition get_network_metrics (self : state) (current_net_io : net_io)
           (current_time : Q) : net_metrics * state :=
  let time_delta := current_time - prev_time self in
  let upload_speed :=
    rate (bytes_sent current_net_io) (bytes_sent (prev_net_io self))
         time_delta in
  let download_speed :=
    rate (bytes_recv current_net_io) (bytes_recv (prev_net_io self))
         time_delta in
  (mk_net upload_speed download_speed,
   mk_state (prev_disk_io self) current_net_io (prev_time self)
            (health_history self) (history_max self)).

(** Everything one refresh reads from the metric source, in the order it
    is read: the three [time.time()] calls of a refresh are separate
    readings of the clock. *)
Record sample : Type := mk_sample {
  s_cpu_avg : Q;
  s_temp : option Q;
  s_mem_percent : Q;
  s_disk_percent : Q;
  s_disk_io : disk_io;
  s_time_disk : Q;        (* [time.time()] in [get_disk_metrics] *)
  s_net_io : net_io;
  s_time_net : Q;         (* [time.time()] in [get_network_metrics] *)
  s_battery_percent : option Q;
  s_time_end : Q          (* [time.time()] stored in [self.prev_time] *)
}.

(** The values [display_dashboard] computes and prints. *)
Record dashboard : Type := mk_dashboard {
  cpu_status : HealthStatus;
  cpu_trend : Trend;
  temp_status_trend : option (HealthStatus * Trend);
  mem_status : HealthStatus;
  mem_trend : Trend;
  disk_status : HealthStatus;
  disk_trend : Trend;
  disk_speeds : Q * Q;                 (* read, write *)
  net_speeds : Q * Q;                  (* download, upload *)
  batt_status : option HealthStatus
}.

(** [display_dashboard]: the collectors run first, then [prev_time] is
    overwritten, then the statuses and trends are computed from the
    histories the collectors have already appended to. *)
Definition display_dashboard (self : state) (s : sample)
  : dashboard * state :=
  let '(cpu, self) := get_cpu_metrics self (s_cpu_avg s) (s_temp s) in
  let '(mem, self) := get_memory_metrics self (s_mem_percent s) in
  let '(disk, self) :=
    get_disk_metrics self (s_disk_percent s) (s_disk_io s) (s_time_disk s) in
  let '(net, self) := get_network_metrics self (s_net_io s) (s_time_net s) in
  let self :=
    mk_state (prev_disk_io self) (prev_net_io self) (s_time_end s)
             (health_history self) (history_max self) in
  (mk_dashboard
     (fst (get_status_and_color "cpu" (Some (average cpu))))
     (analyze_trend self "cpu" (Some (average cpu)))
     (match temperature cpu with
      | Some t =>
          Some (fst (get_status_and_color "temperature" (Some t)),
                analyze_trend self "temperature" (Some t))
      | None => None
      end)
     (fst (get_status_and_color "memory" (Some mem)))
     (analyze_trend self "memory" (Some mem))
     (fst (get_status_and_color "disk" (Some (percent disk))))
     (analyze_trend self "disk" (Some (percent disk)))
     (read_speed disk, write_speed disk)
     (download_speed net, upload_speed net)
     (match s_battery_percent s with
      | Some b => Some (fst (get_status_and_color "battery" (Some b)))
      | None => None
      end),
   self).

(** [run]: one refresh per sample, the dashboards in order. *)
Fixpoint run (self : state) (samples : list sample)
  : list dashboard * state :=
  match samples with
  | [] => ([], self)
  | s :: rest =>
      let '(d, self) := display_dashboard self s in
      let '(ds, self) := run self rest in
      (d :: ds, self)
  end.

(** *** get_cpu_temperature

    [sensors] is what [psutil.sensors_temperatures()] does: it raises, or
    returns a dict from sensor name to the list of its readings, of which
    the code uses the field [current] only. *)

(** [entries[0].current] *)
Definition first_current (entries : list Q) : outcome (option Q) :=
  match entries with
  | [] => Raises IndexError
  | e :: _ => Returns (Some e)
  end.

(** [for key, entries in temps.items(): if entries: return entries[0].current],
    falling out of the loop to the final [return None]. *)
Fixpoint first_nonempty (temps : list (string * list Q)) : option Q :=
  match temps with
  | [] => None
  | (_, entries) :: temps' =>
      match entries with
      | [] => first_nonempty temps'
      | e :: _ => Some e
      end
  end.

(** [except (OSError, AttributeError, PermissionError)] *)
Definition caught_by_temperature_handler (e : exn) : bool :=
  match e with
  | OSError | AttributeError | PermissionError => true
  | _ => false
  end.

Definition get_cpu_temperature (os_type : string)
           (sensors : outcome (list (string * list Q)))
  : outcome (option Q) :=
  match sensors with
  | Raises e =>
      if caught_by_temperature_handler e then Returns None else Raises e
  | Returns temps =>
      match temps with
      | [] => Returns None
      | _ :: _ =>
          if String.eqb os_type "Windows" then
            match dict_get temps "coretemp" with
            | Some entries => first_current entries
            | None =>
                match dict_get temps "acpitz" with
                | Some entries => first_current entries
                | None => Returns (first_nonempty temps)
                end
            end
          else if String.eqb os_type "Darwin" then
            match dict_get temps "coretemp" with
            | Some entries => first_current entries
            | None => Returns (first_nonempty temps)
            end
          else
            match dict_get temps "coretemp" with
            | Some entries => first_current entries
            | None =>
                match dict_get temps "acpitz" with
                | Some entries => first_current entries
                | None => Returns (first_nonempty temps)
                end
            end
      end
  end.

(** *** get_process_health

    One item of [psutil.process_iter([...])]: the [info] dict of a
    process.  [psutil] stores [None] for a field it was denied access
    to. *)
Record proc_info : Type := mk_proc {
  p_name : string;
  p_cpu_percent : option Q;
  p_memory_percent : option Q
}.

(** The dicts appended to [process_issues], by their ['type']. *)
Inductive process_issue : Type :=
  | CPU_issue (name : string) (cpu : Q)
  | Memory_issue (name : string) (memory : Q).

(** The [for] loop.  Comparing [None] with a number raises [TypeError],
    which is neither [NoSuchProcess] nor [AccessDenied]: it leaves the loop
    through the outer [except Exception: pass], with the issues appended
    so far. *)
Fixpoint scan_processes (procs : list proc_info)
         (process_issues : list process_issue) : list process_issue :=
  match procs with
  | [] => process_issues
  | proc :: procs' =>
      match p_cpu_percent proc with
      | None => process_issues
      | Some cpu =>
          let process_issues :=
            if Py.gt cpu (getitem THRESHOLDS "process_cpu_warning")
            then (process_issues ++ [CPU_issue (p_name proc) cpu])%list
            else process_issues in
          match p_memory_percent proc with
          | None => process_issues
          | Some memory =>
              let process_issues :=
                if Py.gt memory (getitem THRESHOLDS "process_memory_warning")
                then (process_issues
                        ++ [Memory_issue (p_name proc) memory])%list
                else process_issues in
              scan_processes procs' process_issues
          end
      end
  end.

Definition get_process_health (procs : list proc_info)
  : list process_issue :=
  firstn 5 (scan_processes procs []).

(** *** get_recommendations

    The recommendation texts, one constructor per string of the source
    (each string starts with a bullet). *)
Inductive recommendation : Set :=
  | Close_unnecessary_applications
  | Check_Task_Manager_for_runaway_processes
  | Disable_background_services
  | System_heavily_strained_consider_restarting
  | Close_unused_browser_tabs_and_applications
  | Clear_temporary_files
  | Check_for_memory_leaks_in_processes
  | Insufficient_RAM_consider_upgrading_or_restarting
  | Delete_unnecessary_files_and_folders
  | Empty_Recycle_Bin
  | Run_disk_cleanup_utility
  | Move_large_files_to_external_storage
  | URGENT_Disk_almost_full
  | Ensure_proper_ventilation_around_laptop
  | Clean_dust_from_vents_and_fans
  | Check_if_fans_are_running_normally
  | Reduce_background_processes
  | CRITICAL_Overheat_risk_shutdown_immediately
  | Connect_to_power_adapter_immediately
  | Reduce_screen_brightness
  | Close_power_hungry_applications
  | CRITICAL_Save_work_and_shutdown_now
  | Close_disk_intensive_applications
  | Run_disk_defragmentation
  | Check_for_malware_scanning_in_background
  | Inspect_USB_ports_for_physical_damage
  | Try_different_USB_devices
  | Update_chipset_drivers
  | Check_power_adapter_for_loose_connections
  | Inspect_power_cable_for_damage
  | Consider_replacing_power_adapter
  | Backup_important_data_immediately
  | Run_disk_diagnostic_tool
  | Consider_replacing_storage_drive.

Definition status_eqb (a b : HealthStatus) : bool :=
  match a, b with
  | CRITICAL, CRITICAL | WARNING, WARNING | CAUTION, CAUTION
  | HEALTHY, HEALTHY | UNKNOWN, UNKNOWN => true
  | _, _ => false
  end.

(** [status in statuses] *)
Definition status_in (status : HealthStatus) (statuses : list HealthStatus)
  : bool :=
  existsb (status_eqb status) statuses.

Definition get_recommendations (metric_type : string) (value : Q)
           (status : HealthStatus) : list recommendation :=
  if String.eqb metric_type "cpu" && status_in status [CRITICAL; WARNING] then
    ([Close_unnecessary_applications;
      Check_Task_Manager_for_runaway_processes;
      Disable_background_services]
     ++ (if status_eqb status CRITICAL
         then [System_heavily_strained_consider_restarting] else []))%list
  else if String.eqb metric_type "memory"
          && status_in status [CRITICAL; WARNING] then
    ([Close_unused_browser_tabs_and_applications;
      Clear_temporary_files;
      Check_for_memory_leaks_in_processes]
     ++ (if status_eqb status CRITICAL
         then [Insufficient_RAM_consider_upgrading_or_restarting]
         else []))%list
  else if String.eqb metric_type "disk"
          && status_in status [CRITICAL; WARNING] then
    ([Delete_unnecessary_files_and_folders;
      Empty_Recycle_Bin;
      Run_disk_cleanup_utility;
      Move_large_files_to_external_storage]
     ++ (if status_eqb status CRITICAL
         then [URGENT_Disk_almost_full] else []))%list
  else if String.eqb metric_type "temperature"
          && status_in status [CRITICAL; WARNING] then
    ([Ensure_proper_ventilation_around_laptop;
      Clean_dust_from_vents_and_fans;
      Check_if_fans_are_running_normally;
      Reduce_background_processes]
     ++ (if status_eqb status CRITICAL
         then [CRITICAL_Overheat_risk_shutdown_immediately] else []))%list
  else if String.eqb metric_type "battery"
          && status_in status [CRITICAL; WARNING] then
    ([Connect_to_power_adapter_immediately;
      Reduce_screen_brightness;
      Close_power_hungry_applications]
     ++ (if Py.le value 10
         then [CRITICAL_Save_work_and_shutdown_now] else []))%list
  else if String.eqb metric_type "disk_io"
          && status_in status [WARNING; CRITICAL] then
    [Close_disk_intensive_applications;
     Run_disk_defragmentation;
     Check_for_malware_scanning_in_background]
  else if String.eqb metric_type "usb_ports"
          && status_eqb status WARNING then
    [Inspect_USB_ports_for_physical_damage;
     Try_different_USB_devices;
     Update_chipset_drivers]
  else if String.eqb metric_type "power_supply"
          && status_in status [WARNING; CRITICAL] then
    [Check_power_adapter_for_loose_connections;
     Inspect_power_cable_for_damage;
     Consider_replacing_power_adapter]
  else if String.eqb metric_type "disk_health"
          && status_in status [WARNING; CRITICAL] then
    [Backup_important_data_immediately;
     Run_disk_diagnostic_tool;
     Consider_replacing_storage_drive]
  else [].

(** *** The issue list of display_dashboard

    [all_issues] as [display_dashboard] builds it, in the order of its
    [append] calls: temperature, cpu, memory, disk, battery, disk health
    (which is appended with the value 0).  [disk_health_status] is
    [self.get_disk_health()['status']]. *)
Definition issue : Type := string * Q * HealthStatus.

Definition issue_if_unhealthy (issue_type : string) (value : Q)
  : list issue :=
  let status := fst (get_status_and_color issue_type (Some value)) in
  if status_eqb status HEALTHY then [] else [(issue_type, value, status)].

Definition all_issues (s : sample) (disk_health_status : HealthStatus)
  : list issue :=
  ((match s_temp s with
    | Some t => issue_if_unhealthy "temperature" t
    | None => []
    end)
   ++ issue_if_unhealthy "cpu" (s_cpu_avg s)
   ++ issue_if_unhealthy "memory" (s_mem_percent s)
   ++ issue_if_unhealthy "disk" (s_disk_percent s)
   ++ (match s_battery_percent s with
       | Some b => issue_if_unhealthy "battery" b
       | None => []
       end)
   ++ (if status_eqb disk_health_status HEALTHY then []
       else [("disk_health", 0, disk_health_status)]))%list.

(** The recommendations printed under one issue of the alert. *)
Definition issue_recommendations (i : issue) : list recommendation :=
  let '(issue_type, value, status) := i in
  get_recommendations issue_type value status.

End Monitor.

(** ** system_health_01.py *)

Module Gui.

Definition THRESHOLDS : list (string * Z) :=
  [ ("cpu_critical", 90); ("cpu_warning", 80); ("cpu_caution", 60);
    ("memory_critical", 95); ("memory_warning", 85); ("memory_caution", 70);
    ("disk_critical", 95); ("disk_warning", 85); ("disk_caution", 70);
    ("temp_critical", 100); ("temp_warning", 85); ("temp_caution", 70);
    ("battery_critical", 10); ("battery_warning", 20);
    ("battery_caution", 50) ]%Z.

(** The GUI keeps the previous counters and the time of construction; it
    has no history. *)
Record state : Type := mk_state {
  prev_disk_io : disk_io;
  prev_net_io : net_io;
  prev_time : Q
}.

Definition get_status_color (metric_type : string) (value : option Q)
  : Color :=
  match value with
  | None => COLOR_UNKNOWN
  | Some value =>
    if String.eqb metric_type "cpu" then
      if Py.ge value (getitem THRESHOLDS "cpu_critical") then COLOR_CRITICAL
      else if Py.ge value (getitem THRESHOLDS "cpu_warning") then COLOR_WARNING
      else if Py.ge value (getitem THRESHOLDS "cpu_caution") then COLOR_CAUTION
      else COLOR_HEALTHY
    else if String.eqb metric_type "memory" || String.eqb metric_type "disk" then
      if Py.ge value (getitem THRESHOLDS (metric_type ++ "_critical"))
      then COLOR_CRITICAL
      else if Py.ge value (getitem THRESHOLDS (metric_type ++ "_warning"))
      then COLOR_WARNING
      else if Py.ge value (getitem THRESHOLDS (metric_type ++ "_caution"))
      then COLOR_CAUTION
      else COLOR_HEALTHY
    else if String.eqb metric_type "temperature" then
      if Py.ge value (getitem THRESHOLDS "temp_critical") then COLOR_CRITICAL
      else if Py.ge value (getitem THRESHOLDS "temp_warning") then COLOR_WARNING
      else if Py.ge value (getitem THRESHOLDS "temp_caution") then COLOR_CAUTION
      else COLOR_HEALTHY
    else if String.eqb metric_type "battery" then
      if Py.le value (getitem THRESHOLDS "battery_critical") then COLOR_CRITICAL
      else if Py.le value (getitem THRESHOLDS "battery_warning") then COLOR_WARNING
      else if Py.le value (getitem THRESHOLDS "battery_caution") then COLOR_CAUTION
      else COLOR_HEALTHY
    else COLOR_NEUTRAL
  end.

(** [get_status_text] returns the strings ["UNKNOWN"], ["CRITICAL"],
    ["WARNING"], ["CAUTION"], ["HEALTHY"], the values of the
    [HealthStatus] constants of the terminal monitor. *)
Definition get_status_text (metric_type : string) (value : option Q)
  : HealthStatus :=
  match value with
  | None => UNKNOWN
  | Some value =>
    if String.eqb metric_type "cpu" then
      if Py.ge value (getitem THRESHOLDS "cpu_critical") then CRITICAL
      else if Py.ge value (getitem THRESHOLDS "cpu_warning") then WARNING
      else if Py.ge value (getitem THRESHOLDS "cpu_caution") then CAUTION
      else HEALTHY
    else if existsb (String.eqb metric_type) ["memory"; "disk"] then
      if Py.ge value (getitem THRESHOLDS (metric_type ++ "_critical"))
      then CRITICAL
      else if Py.ge value (getitem THRESHOLDS (metric_type ++ "_warning"))
      then WARNING
      else if Py.ge value (getitem THRESHOLDS (metric_type ++ "_caution"))
      then CAUTION
      else HEALTHY
    else if String.eqb metric_type "battery" then
      if Py.le value (getitem THRESHOLDS "battery_critical") then CRITICAL
      else if Py.le value (getitem THRESHOLDS "battery_warning") then WARNING
      else if Py.le value (getitem THRESHOLDS "battery_caution") then CAUTION
      else HEALTHY
    else HEALTHY
  end.

Record disk_metrics : Type := mk_disk {
  percent : Q;
  read_speed : Q;
  write_speed : Q
}.

Definition get_disk_metrics (self : state) (disk_usage_percent : Q)
           (current_disk_io : disk_io) (current_time : Q)
  : disk_metrics * state :=
  let time_delta := current_time - prev_time self in
  let disk_read_speed :=
    rate (read_bytes current_disk_io) (read_bytes (prev_disk_io self))
         time_delta in
  let disk_write_speed :=
    rate (write_bytes current_disk_io) (write_bytes (prev_disk_io self))
         time_delta in
  (mk_disk disk_usage_percent disk_read_speed disk_write_speed,
   mk_state current_disk_io (prev_net_io self) (prev_time self)).

Record net_metrics : Type := mk_net {
  upload_speed : Q;
  download_speed : Q
}.

Definition get_network_metrics (self : state) (current_net_io : net_io)
           (current_time : Q) : net_metrics * state :=
  let time_delta := current_time - prev_time self in
  let upload_speed :=
    rate (bytes_sent current_net_io) (bytes_sent (prev_net_io self))
         time_delta in
  let download_speed :=
    rate (bytes_recv current_net_io) (bytes_recv (prev_net_io self))
         time_delta in
  (mk_net upload_speed download_speed,
   mk_state (prev_disk_io self) current_net_io (prev_time self)).

(** *** The temperature of get_cpu_metrics

    The GUI looks for the two sensor names only, and its bare [except:]
    turns every exception, the [IndexError] of an empty reading list
    included, into an absent temperature. *)
Fixpoint scan_keys (keys : list string) (temps : list (string * list Q))
  : option Q :=
  match keys with
  | [] => None
  | key :: keys' =>
      match dict_get temps key with
      | Some entries =>
          match entries with
          | e :: _ => Some e
          | [] => None
          end
      | None => scan_keys keys' temps
      end
  end.

Record cpu_metrics : Type := mk_cpu {
  average : Q;
  temperature : option Q
}.

Definition get_cpu_metrics (cpu_avg : Q)
           (sensors : outcome (list (string * list Q))) : cpu_metrics :=
  let temp :=
    match sensors with
    | Raises _ => None
    | Returns temps =>
        match temps with
        | [] => None
        | _ :: _ => scan_keys ["coretemp"; "acpitz"] temps
        end
    end in
  mk_cpu cpu_avg temp.

(** *** The usage bars of the tabs

    [int(percent / 5)] filled cells followed by [20 - bar_length] empty
    cells; Python repeats a string zero times for a negative count. *)
Inductive cell : Set :=
  | Full     (* the full block character *)
  | Light.   (* the light shade character *)

Definition bar (percent : Q) : list cell :=
  let bar_length := py_int (percent / 5) in
  (repeat Full (Z.to_nat bar_length)
   ++ repeat Light (Z.to_nat (20 - bar_length)))%list.

(** *** update_all_tabs

    What one refresh of all tabs reads for the rates: the overview reads
    the disk and network counters, then the disk tab reads the disk
    counters again and the network tab reads the network counters again,
    each with its own reading of the clock. *)
Record refresh : Type := mk_refresh {
  r_overview_disk_io : disk_io;
  r_overview_disk_time : Q;
  r_overview_net_io : net_io;
  r_overview_net_time : Q;
  r_tab_disk_percent : Q;
  r_tab_disk_io : disk_io;
  r_tab_disk_time : Q;
  r_tab_net_io : net_io;
  r_tab_net_time : Q;
  r_overview_disk_percent : Q
}.

(** The rates one refresh displays: the overview's network speeds, the
    disk tab's disk speeds, the network tab's network speeds. *)
Record displayed : Type := mk_displayed {
  overview_net : net_metrics;
  tab_disk : disk_metrics;
  tab_net : net_metrics
}.

Definition update_all_tabs (self : state) (r : refresh)
  : displayed * state :=
  (* update_overview *)
  let '(_, self) :=
    get_disk_metrics self (r_overview_disk_percent r)
                     (r_overview_disk_io r) (r_overview_disk_time r) in
  let '(o_net, self) :=
    get_network_metrics self (r_overview_net_io r) (r_overview_net_time r) in
  (* update_disk_tab *)
  let '(t_disk, self) :=
    get_disk_metrics self (r_tab_disk_percent r)
                     (r_tab_disk_io r) (r_tab_disk_time r) in
  (* update_network_tab *)
  let '(t_net, self) :=
    get_network_metrics self (r_tab_net_io r) (r_tab_net_time r) in
  (mk_displayed o_net t_disk t_net, self).

(** The monitoring loop and the Refresh button: one [update_all_tabs]
    after the other. *)
Fixpoint refresh_all (self : state) (rs : list refresh)
  : list displayed * state :=
  match rs with
  | [] => ([], self)
  | r :: rs' =>
      let '(d, self) := update_all_tabs self r in
      let '(ds, self) := refresh_all self rs' in
      (d :: ds, self)
  end.

End Gui.

(** ** system_health_monitor.py in double precision

    The same engine with the numbers of the interpreter: readings and
    clock times are IEEE 754 binary64 values, every sum, difference,
    quotient and product is rounded as the interpreter rounds it, and an
    int that meets a float is converted first.  Statements whose truth
    depends on the rounding are made about this module. *)

Module Binary64.

(** [float(n)] for a Python int: the nearest double, ties to even. *)
Definition of_int (n : Z) : float :=
  SF2Prim (binary_normalize prec emax n 0 false).

Definition ge (x y : float) : bool := PrimFloat.leb y x.   (* x >= y *)
Definition le (x y : float) : bool := PrimFloat.leb x y.   (* x <= y *)
Definition gt (x y : float) : bool := PrimFloat.ltb y x.   (* x >  y *)
Definition lt (x y : float) : bool := PrimFloat.ltb x y.   (* x <  y *)

(** The literals [1.1] and [0.9]: the doubles nearest to them. *)
Definition literal_1_1 : float := 0x1.199999999999ap+0%float.
Definition literal_0_9 : float := 0x1.ccccccccccccdp-1%float.

(** [sum(l)] as the interpreters before Python 3.12 compute it: from left
    to right, starting from 0.  (From 3.12 on the built-in compensates the
    rounding errors of the additions; the two agree whenever the additions
    are exact.) *)
Definition sum_left (l : list float) : float :=
  fold_left PrimFloat.add l 0%float.

(** [self.THRESHOLDS[key]] meeting a float. *)
Fixpoint getitem (d : list (string * Z)) (key : string) : float :=
  match d with
  | [] => 0%float
  | (k, v) :: d' => if String.eqb k key then of_int v else getitem d' key
  end.

(** [(current - previous) / time_delta if time_delta > 0 else 0] *)
Definition rate (current previous : Z) (time_delta : float) : float :=
  if gt time_delta 0
  then (of_int (current - previous) / time_delta)%float
  else 0%float.

Record health_history_t : Type := mk_history {
  h_cpu : list float;
  h_memory : list float;
  h_disk : list float;
  h_temperature : list float
}.

Record state : Type := mk_state {
  prev_disk_io : disk_io;
  prev_net_io : net_io;
  prev_time : float;
  health_history : health_history_t;
  history_max : nat
}.

Definition init (d : disk_io) (n : net_io) (now : float) : state :=
  {| prev_disk_io := d;
     prev_net_io := n;
     prev_time := now;
     health_history := mk_history [] [] [] [];
     history_max := 5 |}.

Definition get_status_and_color (metric_type : string) (value : option float)
  : HealthStatus * Color :=
  match value with
  | None => (UNKNOWN, COLOR_UNKNOWN)
  | Some value =>
    if String.eqb metric_type "cpu" then
      if ge value (getitem Monitor.THRESHOLDS "cpu_critical")
      then (CRITICAL, COLOR_CRITICAL)
      else if ge value (getitem Monitor.THRESHOLDS "cpu_warning")
      then (WARNING, COLOR_WARNING)
      else if ge value (getitem Monitor.THRESHOLDS "cpu_caution")
      then (CAUTION, COLOR_CAUTION)
      else (HEALTHY, COLOR_HEALTHY)
    else if String.eqb metric_type "memory" then
      if ge value (getitem Monitor.THRESHOLDS "memory_critical")
      then (CRITICAL, COLOR_CRITICAL)
      else if ge value (getitem Monitor.THRESHOLDS "memory_warning")
      then (WARNING, COLOR_WARNING)
      else if ge value (getitem Monitor.THRESHOLDS "memory_caution")
      then (CAUTION, COLOR_CAUTION)
      else (HEALTHY, COLOR_HEALTHY)
    else if String.eqb metric_type "disk" then
      if ge value (getitem Monitor.THRESHOLDS "disk_critical")
      then (CRITICAL, COLOR_CRITICAL)
      else if ge value (getitem Monitor.THRESHOLDS "disk_warning")
      then (WARNING, COLOR_WARNING)
      else if ge value (getitem Monitor.THRESHOLDS "disk_caution")
      then (CAUTION, COLOR_CAUTION)
      else (HEALTHY, COLOR_HEALTHY)
    else if String.eqb metric_type "temperature" then
      if ge value (getitem Monitor.THRESHOLDS "temp_critical")
      then (CRITICAL, COLOR_CRITICAL)
      else if ge value (getitem Monitor.THRESHOLDS "temp_warning")
      then (WARNING, COLOR_WARNING)
      else if ge value (getitem Monitor.THRESHOLDS "temp_caution")
      then (CAUTION, COLOR_CAUTION)
      else (HEALTHY, COLOR_HEALTHY)
    else if String.eqb metric_type "battery" then
      if le value (getitem Monitor.THRESHOLDS "battery_critical")
      then (CRITICAL, COLOR_CRITICAL)
      else if le value (getitem Monitor.THRESHOLDS "battery_warning")
      then (WARNING, COLOR_WARNING)
      else if le value (getitem Monitor.THRESHOLDS "battery_caution")
      then (CAUTION, COLOR_CAUTION)
      else (HEALTHY, COLOR_HEALTHY)
    else (HEALTHY, COLOR_HEALTHY)
  end.

(** [history.append(x)], then [history.pop(0)] if
    [len(history) > self.history_max]. *)
Definition append_pop0 (history_max : nat) (history : list float) (x : float)
  : list float :=
  let history := (history ++ [x])%list in
  if (history_max <? List.length history)%nat then tl history else history.

(** [self.health_history.get(key, default)]. *)
Definition get (h : health_history_t) (key : string) (default : list float)
  : list float :=
  if String.eqb key "cpu" then h_cpu h
  else if String.eqb key "memory" then h_memory h
  else if String.eqb key "disk" then h_disk h
  else if String.eqb key "temperature" then h_temperature h
  else default.

Record cpu_metrics : Type := mk_cpu {
  average : float;
  temperature : option float
}.

Definition get_cpu_metrics (self : state) (cpu_avg : float)
           (temp : option float) : cpu_metrics * state :=
  let h := health_history self in
  let h := mk_history (append_pop0 (history_max self) (h_cpu h) cpu_avg)
                      (h_memory h) (h_disk h) (h_temperature h) in
  let h :=
    match temp with
    | Some t =>
        mk_history (h_cpu h) (h_memory h) (h_disk h)
                   (append_pop0 (history_max self) (h_temperature h) t)
    | None => h
    end in
  (mk_cpu cpu_avg temp,
   mk_state (prev_disk_io self) (prev_net_io self) (prev_time self)
            h (history_max self)).

Definition get_memory_metrics (self : state) (mem_percent : float)
  : float * state :=
  let h := health_history self in
  let h := mk_history (h_cpu h)
                      (append_pop0 (history_max self) (h_memory h) mem_percent)
                      (h_disk h) (h_temperature h) in
  (mem_percent,
   mk_state (prev_disk_io self) (prev_net_io self) (prev_time self)
            h (history_max self)).

Record disk_metrics : Type := mk_disk {
  percent : float;
  read_speed : float;
  write_speed : float
}.

Definition get_disk_metrics (self : state) (disk_usage_percent : float)
           (current_disk_io : disk_io) (current_time : float)
  : disk_metrics * state :=
  let time_delta := (current_time - prev_time self)%float in
  let disk_read_speed :=
    rate (read_bytes current_disk_io) (read_bytes (prev_disk_io self))
         time_delta in
  let disk_write_speed :=
    rate (write_bytes current_disk_io) (write_bytes (prev_disk_io self))
         time_delta in
  let h := health_history self in
  let h := mk_history (h_cpu h) (h_memory h)
                      (append_pop0 (history_max self) (h_disk h)
                                   disk_usage_percent)
                      (h_temperature h) in
  (mk_disk disk_usage_percent disk_read_speed disk_write_speed,
   mk_state current_disk_io (prev_net_io self) (prev_time self)
            h (history_max self)).

Record net_metrics : Type := mk_net {
  upload_speed : float;
  download_speed : float
}.

Definition get_network_metrics (self : state) (current_net_io : net_io)
           (current_time : float) : net_metrics * state :=
  let time_delta := (current_time - prev_time self)%float in
  let upload_speed :=
    rate (bytes_sent current_net_io) (bytes_sent (prev_net_io self))
         time_delta in
  let download_speed :=
    rate (bytes_recv current_net_io) (bytes_recv (prev_net_io self))
         time_delta in
  (mk_net upload_speed download_speed,
   mk_state (prev_disk_io self) current_net_io (prev_time self)
            (health_history self) (history_max self)).

(** Everything one refresh reads from the metric source, in the order it
    is read. *)
Record sample : Type := mk_sample {
  s_cpu_avg : float;
  s_temp : option float;
  s_mem_percent : float;
  s_disk_percent : float;
  s_disk_io : disk_io;
  s_time_disk : float;
  s_net_io : net_io;
  s_time_net : float;
  s_battery_percent : option float;
  s_time_end : float
}.

(** The values [display_dashboard] computes and prints. *)
Record dashboard : Type := mk_dashboard {
  cpu_status : HealthStatus;
  cpu_trend : Trend;
  temp_status_trend : option (HealthStatus * Trend);
  mem_status : HealthStatus;
  mem_trend : Trend;
  disk_status : HealthStatus;
  disk_trend : Trend;
  disk_speeds : float * float;
  net_speeds : float * float;
  batt_status : option HealthStatus
}.

(** The reading of a sample that the refresh records for a metric name;
    [None] for a name without window and for an absent temperature. *)
Definition reading (s : sample) (metric_type : string) : option float :=
  if String.eqb metric_type "cpu" then Some (s_cpu_avg s)
  else if String.eqb metric_type "memory" then Some (s_mem_percent s)
  else if String.eqb metric_type "disk" then Some (s_disk_percent s)
  else if String.eqb metric_type "temperature" then s_temp s
  else None.

Section Interpreter.

(** The built-in [sum] on a list of floats.  Its rounding is the
    interpreter's business and has changed between versions, so the
    engine is stated over whatever the built-in computes; [sum_left] is
    the one of the interpreters before 3.12. *)
Variable py_sum : list float -> float.

Definition analyze_trend (self : state) (metric_type : string)
           (current_value : option float) : Trend :=
  match current_value with
  | None => NoData
  | Some current_value =>
    let history := get (health_history self) metric_type [] in
    if (Py.len history <? 2)%Z then InsufficientData
    else
      let avg_recent :=
        (py_sum (Py.last_slice 3 history)
         / of_int (Z.min 3 (Py.len history)))%float in
      if gt current_value (avg_recent * literal_1_1)%float then Increasing
      else if lt current_value (avg_recent * literal_0_9)%float
      then Decreasing
      else Stable
  end.

Definition display_dashboard (self : state) (s : sample)
  : dashboard * state :=
  let '(cpu, self) := get_cpu_metrics self (s_cpu_avg s) (s_temp s) in
  let '(mem, self) := get_memory_metrics self (s_mem_percent s) in
  let '(disk, self) :=
    get_disk_metrics self (s_disk_percent s) (s_disk_io s) (s_time_disk s) in
  let '(net, self) := get_network_metrics self (s_net_io s) (s_time_net s) in
  let self :=
    mk_state (prev_disk_io self) (prev_net_io self) (s_time_end s)
             (health_history self) (history_max self) in
  (mk_dashboard
     (fst (get_status_and_color "cpu" (Some (average cpu))))
     (analyze_trend self "cpu" (Some (average cpu)))
     (match temperature cpu with
      | Some t =>
          Some (fst (get_status_and_color "temperature" (Some t)),
                analyze_trend self "temperature" (Some t))
      | None => None
      end)
     (fst (get_status_and_color "memory" (Some mem)))
     (analyze_trend self "memory" (Some mem))
     (fst (get_status_and_color "disk" (Some (percent disk))))
     (analyze_trend self "disk" (Some (percent disk)))
     (read_speed disk, write_speed disk)
     (download_speed net, upload_speed net)
     (match s_battery_percent s with
      | Some b => Some (fst (get_status_and_color "battery" (Some b)))
      | None => None
      end),
   self).

Fixpoint run (self : state) (samples : list sample)
  : list dashboard * state :=
  match samples with
  | [] => ([], self)
  | s :: rest =>
      let '(d, self) := display_dashboard self s in
      let '(ds, self) := run self rest in
      (d :: ds, self)
  end.

(** The arithmetic mean as the engine computes it: the built-in sum
    divided by the length. *)
Definition mean (l : list float) : float :=
  (py_sum l / of_int (Py.len l))%float.

End Interpreter.

(** The verdict of the 10% deadband around a reference value [m], with
    the products rounded. *)
Definition deadband (current m : float) : Trend :=
  if gt current (m * literal_1_1)%float then Increasing
  else if lt current (m * literal_0_9)%float then Decreasing
  else Stable.

(** A sample whose CPU average is [cpu_avg], on a machine without
    temperature sensor or battery, with idle counters. *)
Definition cpu_sample (cpu_avg : float) (now : float) : sample :=
  mk_sample cpu_avg None 40 40
            (mk_disk_io 5000000 5000000) now
            (mk_net_io 5000000 5000000) now
            None now.

(** A monitor constructed at time 100, and the state after three
    refreshes that each read a CPU average of 50. *)
Definition monitor0 : state :=
  init (mk_disk_io 5000000 5000000) (mk_net_io 5000000 5000000) 100.

Definition after_three_50 : state :=
  snd (run sum_left monitor0
         [cpu_sample 50 115; cpu_sample 50 130; cpu_sample 50 145]).

End Binary64.

(** ** Concrete runs used below *)

Module Scenario.

(** A monitor constructed at time 100 with every counter at 5,000,000. *)
Definition monitor0 : Monitor.state :=
  Monitor.init (mk_disk_io 5000000 5000000) (mk_net_io 5000000 5000000) 100.

Definition gui0 : Gui.state :=
  Gui.mk_state (mk_disk_io 5000000 5000000) (mk_net_io 5000000 5000000) 100.

(** Counters read after a reset: all at 1,000,000. *)
Definition disk_after_reset : disk_io := mk_disk_io 1000000 1000000.
Definition net_after_reset : net_io := mk_net_io 1000000 1000000.

(** A sample whose CPU average is [cpu_avg], on a machine without
    temperature sensor or battery, taken [dt] seconds after time 100. *)
Definition cpu_sample (cpu_avg : Q) (dt : Q) : Monitor.sample :=
  Monitor.mk_sample cpu_avg None 40 40
                    (mk_disk_io 5000000 5000000) (100 + dt)
                    (mk_net_io 5000000 5000000) (100 + dt)
                    None (100 + dt).


(** The first end-to-end scenario of the specification: CPU averages
    50, 55, 58, 70 on four consecutive refreshes of a new monitor. *)
Definition scenario1 : list Monitor.sample :=
  [cpu_sample 50 15; cpu_sample 55 30; cpu_sample 58 45; cpu_sample 70 60].

(** A refresh that reads 65 degrees, and the state it leaves. *)
Definition warm_sample : Monitor.sample :=
  Monitor.mk_sample 50 (Some 65) 40 40
                    (mk_disk_io 5000000 5000000) 115
                    (mk_net_io 5000000 5000000) 115
                    None 115.

Definition after_warm : Monitor.state :=
  snd (Monitor.display_dashboard monitor0 warm_sample).

(** Three processes over both cutoffs, and a heavier one. *)
Definition three_heavy : list Monitor.proc_info :=
  [Monitor.mk_proc "a" (Some 50) (Some 40);
   Monitor.mk_proc "b" (Some 50) (Some 40);
   Monitor.mk_proc "c" (Some 50) (Some 40)].

Definition heaviest : Monitor.proc_info :=
  Monitor.mk_proc "heaviest" (Some 100) (Some 100).

(** The read counter reset to 1,000,000 while the write counter grew to
    9,000,000. *)
Definition read_reset_write_grown : disk_io := mk_disk_io 1000000 9000000.

End Scenario.

(** ** Vocabulary of the statements below *)

Module Rule.

(** The temperature readings a list of samples actually carries, oldest
    first: absent readings contribute nothing. *)
Definition present_temperatures (samples : list Monitor.sample) : list Q :=
  flat_map (fun s => match Monitor.s_temp s with
                     | Some t => [t]
                     | None => []
                     end) samples.

(** The arithmetic mean of a list of readings. *)
Definition mean (l : list Q) : Q := Py.sum l / inject_Z (Py.len l).

(** The verdict of the 10% deadband around a reference value [m]: more
    than 10% above, more than 10% below, or neither. *)
Definition deadband (current m : Q) : Trend :=
  if Py.gt current (m * 1.1) then Increasing
  else if Py.lt current (m * 0.9) then Decreasing
  else Stable.

(** The invariant of the refresh loop: each window holds the last
    [history_max] values of the stream it was fed. *)
Definition tracks (self : Monitor.state) (cpus mems disks temps : list Q)
  : Prop :=
  let h := Monitor.health_history self in
  let m := Monitor.history_max self in
  Monitor.h_cpu h = Py.last_slice m cpus
  /\ Monitor.h_memory h = Py.last_slice m mems
  /\ Monitor.h_disk h = Py.last_slice m disks
  /\ Monitor.h_temperature h = Py.last_slice m temps.

(** The four windows after the monitor was constructed and refreshed once
    per sample. *)
Definition windows_after (d : disk_io) (n : net_io) (now : Q)
           (samples : list Monitor.sample) : Monitor.health_history_t :=
  Monitor.health_history (snd (Monitor.run (Monitor.init d n now) samples)).

(** The reading of a sample that the refresh records for a metric name;
    [None] for a name without window and for an absent temperature. *)
Definition reading (s : Monitor.sample) (metric_type : string) : option Q :=
  if String.eqb metric_type "cpu" then Some (Monitor.s_cpu_avg s)
  else if String.eqb metric_type "memory" then Some (Monitor.s_mem_percent s)
  else if String.eqb metric_type "disk" then Some (Monitor.s_disk_percent s)
  else if String.eqb metric_type "temperature" then Monitor.s_temp s
  else None.

(** The four trend verdicts of the specification's data model, and the
    verdict each answer of [analyze_trend] stands for: "No data" and
    "Insufficient data" both say that no direction can be given. *)
Inductive TrendVerdict : Set :=
  | INSUFFICIENT_DATA
  | INCREASING
  | DECREASING
  | STABLE.

Definition verdict_of (answer : Trend) : TrendVerdict :=
  match answer with
  | NoData => INSUFFICIENT_DATA
  | InsufficientData => INSUFFICIENT_DATA
  | Increasing => INCREASING
  | Decreasing => DECREASING
  | Stable => STABLE
  end.

End Rule.

(** ** Vocabulary of the further properties *)

Module Shape.

(** The colour constant that goes with a status. *)
Definition color_of (status : HealthStatus) : Color :=
  match status with
  | CRITICAL => COLOR_CRITICAL
  | WARNING => COLOR_WARNING
  | CAUTION => COLOR_CAUTION
  | HEALTHY => COLOR_HEALTHY
  | UNKNOWN => COLOR_UNKNOWN
  end.

(** The band table of an ascending metric with cutoffs [caution],
    [warning], [critical]: which readings get which band. *)
Definition ascending_bands (caution warning critical : Q)
           (value : Q) (band : HealthStatus) : Prop :=
  (band = HEALTHY <-> value < caution)
  /\ (band = CAUTION <-> caution <= value /\ value < warning)
  /\ (band = WARNING <-> warning <= value /\ value < critical)
  /\ (band = CRITICAL <-> critical <= value).

(** The band table of the battery, whose cutoffs count from below. *)
Definition descending_bands (caution warning critical : Q)
           (value : Q) (band : HealthStatus) : Prop :=
  (band = HEALTHY <-> caution < value)
  /\ (band = CAUTION <-> warning < value /\ value <= caution)
  /\ (band = WARNING <-> critical < value /\ value <= warning)
  /\ (band = CRITICAL <-> value <= critical).

(** The issues one process with readable figures contributes. *)
Definition issues_of (proc : Monitor.proc_info) : list Monitor.process_issue :=
  match Monitor.p_cpu_percent proc, Monitor.p_memory_percent proc with
  | Some cpu, Some memory =>
      ((if Py.gt cpu 40 then [Monitor.CPU_issue (Monitor.p_name proc) cpu]
        else [])
       ++ (if Py.gt memory 30
           then [Monitor.Memory_issue (Monitor.p_name proc) memory]
           else []))%list
  | _, _ => []
  end.

(** Every figure of the process was readable. *)
Definition readable (proc : Monitor.proc_info) : Prop :=
  Monitor.p_cpu_percent proc <> None /\ Monitor.p_memory_percent proc <> None.

(** The figure an issue reports is above the cutoff of its kind. *)
Definition over_cutoff (i : Monitor.process_issue) : Prop :=
  match i with
  | Monitor.CPU_issue _ cpu => 40 < cpu
  | Monitor.Memory_issue _ memory => 30 < memory
  end.

(** No sensor of the dict has a reading. *)
Definition all_empty (temps : list (string * list Q)) : Prop :=
  Forall (fun kv => snd kv = []) temps.

End Shape.

(** * Properties *)

Arguments Py.ge : simpl never.
Arguments Py.le : simpl never.
Arguments Py.gt : simpl never.
Arguments Py.lt : simpl never.
Arguments getitem : simpl never.
Arguments rate : simpl never.

(** ** The comparison operators compute the order of [Q] *)

Lemma ge_true_iff (x y : Q) : Py.ge x y = true <-> y <= x.
Proof. unfold Py.ge. apply Qle_bool_iff. Qed.

Lemma le_true_iff (x y : Q) : Py.le x y = true <-> x <= y.
Proof. unfold Py.le. apply Qle_bool_iff. Qed.

Lemma gt_true_iff (x y : Q) : Py.gt x y = true <-> y < x.
Proof.
  unfold Py.gt. rewrite negb_true_iff, <- not_true_iff_false, Qle_bool_iff.
  split; [apply Qnot_le_lt | apply Qlt_not_le].
Qed.


Lemma gt_false_iff (x y : Q) : Py.gt x y = false <-> x <= y.
Proof.
  unfold Py.gt. rewrite negb_false_iff. apply Qle_bool_iff.
Qed.

(** ** The rate expression *)

Section Rate.

Variables (current previous : Z) (time_delta : Q).

Lemma rate_elapsed_pos :
  0 < time_delta ->
  rate current previous time_delta
  = inject_Z (current - previous) / time_delta.
Proof.
  intros Hpos. unfold rate.
  apply gt_true_iff in Hpos. now rewrite Hpos.
Qed.

Lemma rate_elapsed_nonpos :
  time_delta <= 0 -> rate current previous time_delta = 0.
Proof.
  intros Hle. unfold rate.
  apply gt_false_iff in Hle. now rewrite Hle.
Qed.

(** With time elapsed, the sign of the rate is the sign of the counter
    difference: there is no clamp. *)
Lemma rate_reset_negative :
  0 < time_delta -> (current < previous)%Z ->
  rate current previous time_delta < 0.
Proof.
  intros Hpos Hlt. rewrite (rate_elapsed_pos Hpos).
  assert (Hd : inject_Z (current - previous) < 0).
  { change 0 with (inject_Z 0). rewrite <- Zlt_Qlt. lia. }
  apply Qlt_shift_div_r; [exact Hpos|].
  now rewrite Qmult_0_l.
Qed.

End Rate.

(** The read counter going from 1,000,000 to 5,000,000 in four seconds is a
    rate of 1,000,000 bytes per second. *)
Example rate_scenario2 : rate 5000000 1000000 4 == 1000000.
Proof. reflexivity. Qed.

(** A battery at 8% is critical. *)
Example battery_8_critical :
  Monitor.get_status_and_color "battery" (Some 8) = (CRITICAL, COLOR_CRITICAL)
  /\ Gui.get_status_text "battery" (Some 8) = CRITICAL.
Proof. split; reflexivity. Qed.

(** ** Rates in the two programs *)

(** C8.  When no time has elapsed since [prev_time] (or the clock went
    backwards), every rate is 0 whatever the counters are: the disk read and
    write speeds and the network upload and download speeds, in the terminal
    monitor and in the GUI. *)
Theorem rates_zero_when_no_time_elapsed :
  forall (self : Monitor.state) (gui : Gui.state) (pct : Q)
         (d : disk_io) (n : net_io) (now : Q),
    now - Monitor.prev_time self <= 0 ->
    now - Gui.prev_time gui <= 0 ->
    (Monitor.read_speed (fst (Monitor.get_disk_metrics self pct d now)) = 0
     /\ Monitor.write_speed (fst (Monitor.get_disk_metrics self pct d now)) = 0
     /\ Monitor.upload_speed (fst (Monitor.get_network_metrics self n now)) = 0
     /\ Monitor.download_speed (fst (Monitor.get_network_metrics self n now)) = 0)
    /\
    (Gui.read_speed (fst (Gui.get_disk_metrics gui pct d now)) = 0
     /\ Gui.write_speed (fst (Gui.get_disk_metrics gui pct d now)) = 0
     /\ Gui.upload_speed (fst (Gui.get_network_metrics gui n now)) = 0
     /\ Gui.download_speed (fst (Gui.get_network_metrics gui n now)) = 0).
Proof.
  intros self gui pct d n now Hm Hg.
  cbn [Monitor.get_disk_metrics Monitor.get_network_metrics
       Gui.get_disk_metrics Gui.get_network_metrics fst
       Monitor.read_speed Monitor.write_speed
       Monitor.upload_speed Monitor.download_speed
       Gui.read_speed Gui.write_speed Gui.upload_speed Gui.download_speed].
  repeat split; apply rate_elapsed_nonpos; assumption.
Qed.

Lemma rates_zero_when_no_time_elapsed_witness :
  100 - Monitor.prev_time Scenario.monitor0 <= 0
  /\ 100 - Gui.prev_time Scenario.gui0 <= 0
  /\ Monitor.read_speed
       (fst (Monitor.get_disk_metrics Scenario.monitor0 40
               (mk_disk_io 9000000 9000000) 100)) = 0
  /\ Gui.download_speed
       (fst (Gui.get_network_metrics Scenario.gui0
               (mk_net_io 9000000 9000000) 100)) = 0.
Proof.
  assert (Hm : 100 - Monitor.prev_time Scenario.monitor0 <= 0)
    by (vm_compute; discriminate).
  assert (Hg : 100 - Gui.prev_time Scenario.gui0 <= 0)
    by (vm_compute; discriminate).
  pose proof (rates_zero_when_no_time_elapsed
                Scenario.monitor0 Scenario.gui0 40
                (mk_disk_io 9000000 9000000) (mk_net_io 9000000 9000000)
                100 Hm Hg) as [[Hr _] [_ [_ [_ Hd]]]].
  repeat split; assumption.
Defined.

(** C1, as the spec states it, fails: four seconds after construction, with
    the read counter fallen from 5,000,000 to 1,000,000, both programs
    report a read speed of -1,000,000 bytes per second, not 0. *)
Lemma counter_reset_rate_counterexample :
  0 < 104 - Monitor.prev_time Scenario.monitor0
  /\ (read_bytes Scenario.disk_after_reset
      < read_bytes (Monitor.prev_disk_io Scenario.monitor0))%Z
  /\ Monitor.read_speed
       (fst (Monitor.get_disk_metrics Scenario.monitor0 40
               Scenario.disk_after_reset 104)) == - (1000000)
  /\ ~ Monitor.read_speed
       (fst (Monitor.get_disk_metrics Scenario.monitor0 40
               Scenario.disk_after_reset 104)) == 0
  /\ ~ Gui.read_speed
       (fst (Gui.get_disk_metrics Scenario.gui0 40
               Scenario.disk_after_reset 104)) == 0
  /\ ~ Monitor.upload_speed
       (fst (Monitor.get_network_metrics Scenario.monitor0
               Scenario.net_after_reset 104)) == 0.
Proof.
  repeat split; vm_compute; discriminate.
Qed.

(** C1, amended.  With time elapsed, each of the eight rates (disk read
    and write, network upload and download, in the terminal monitor and in
    the GUI) is the quotient of the difference of its own counter by the
    elapsed time, with no clamp; so whenever a counter went down the rate
    computed from it is strictly negative, whatever the other counters
    did. *)
Theorem counter_reset_rate_is_negative :
  forall (self : Monitor.state) (gui : Gui.state) (pct : Q)
         (d : disk_io) (n : net_io) (now : Q),
    0 < now - Monitor.prev_time self ->
    0 < now - Gui.prev_time gui ->
    ((Monitor.read_speed (fst (Monitor.get_disk_metrics self pct d now))
      = inject_Z (read_bytes d - read_bytes (Monitor.prev_disk_io self))
        / (now - Monitor.prev_time self)
      /\ ((read_bytes d < read_bytes (Monitor.prev_disk_io self))%Z ->
          Monitor.read_speed (fst (Monitor.get_disk_metrics self pct d now))
          < 0))
     /\ (Monitor.write_speed (fst (Monitor.get_disk_metrics self pct d now))
         = inject_Z (write_bytes d - write_bytes (Monitor.prev_disk_io self))
           / (now - Monitor.prev_time self)
         /\ ((write_bytes d < write_bytes (Monitor.prev_disk_io self))%Z ->
             Monitor.write_speed (fst (Monitor.get_disk_metrics self pct d now))
             < 0))
     /\ (Monitor.upload_speed (fst (Monitor.get_network_metrics self n now))
         = inject_Z (bytes_sent n - bytes_sent (Monitor.prev_net_io self))
           / (now - Monitor.prev_time self)
         /\ ((bytes_sent n < bytes_sent (Monitor.prev_net_io self))%Z ->
             Monitor.upload_speed (fst (Monitor.get_network_metrics self n now))
             < 0))
     /\ (Monitor.download_speed (fst (Monitor.get_network_metrics self n now))
         = inject_Z (bytes_recv n - bytes_recv (Monitor.prev_net_io self))
           / (now - Monitor.prev_time self)
         /\ ((bytes_recv n < bytes_recv (Monitor.prev_net_io self))%Z ->
             Monitor.download_speed
               (fst (Monitor.get_network_metrics self n now)) < 0)))
    /\
    ((Gui.read_speed (fst (Gui.get_disk_metrics gui pct d now))
      = inject_Z (read_bytes d - read_bytes (Gui.prev_disk_io gui))
        / (now - Gui.prev_time gui)
      /\ ((read_bytes d < read_bytes (Gui.prev_disk_io gui))%Z ->
          Gui.read_speed (fst (Gui.get_disk_metrics gui pct d now)) < 0))
     /\ (Gui.write_speed (fst (Gui.get_disk_metrics gui pct d now))
         = inject_Z (write_bytes d - write_bytes (Gui.prev_disk_io gui))
           / (now - Gui.prev_time gui)
         /\ ((write_bytes d < write_bytes (Gui.prev_disk_io gui))%Z ->
             Gui.write_speed (fst (Gui.get_disk_metrics gui pct d now)) < 0))
     /\ (Gui.upload_speed (fst (Gui.get_network_metrics gui n now))
         = inject_Z (bytes_sent n - bytes_sent (Gui.prev_net_io gui))
           / (now - Gui.prev_time gui)
         /\ ((bytes_sent n < bytes_sent (Gui.prev_net_io gui))%Z ->
             Gui.upload_speed (fst (Gui.get_network_metrics gui n now)) < 0))
     /\ (Gui.download_speed (fst (Gui.get_network_metrics gui n now))
         = inject_Z (bytes_recv n - bytes_recv (Gui.prev_net_io gui))
           / (now - Gui.prev_time gui)
         /\ ((bytes_recv n < bytes_recv (Gui.prev_net_io gui))%Z ->
             Gui.download_speed (fst (Gui.get_network_metrics gui n now))
             < 0))).
Proof.
  intros self gui pct d n now Hm Hg.
  cbn [Monitor.get_disk_metrics Monitor.get_network_metrics
       Gui.get_disk_metrics Gui.get_network_metrics fst
       Monitor.read_speed Monitor.write_speed
       Monitor.upload_speed Monitor.download_speed
       Gui.read_speed Gui.write_speed Gui.upload_speed Gui.download_speed].
  repeat match goal with |- _ /\ _ => split end;
    first [ apply rate_elapsed_pos; assumption
          | intros Hfell; apply rate_reset_negative; assumption ].
Qed.

(** The read counter fell from 5,000,000 to 1,000,000 while the write
    counter rose to 9,000,000: the read speed is negative and the write
    speed is the positive quotient. *)
Lemma counter_reset_rate_is_negative_witness :
  0 < 104 - Monitor.prev_time Scenario.monitor0
  /\ 0 < 104 - Gui.prev_time Scenario.gui0
  /\ Monitor.read_speed
       (fst (Monitor.get_disk_metrics Scenario.monitor0 40
               Scenario.read_reset_write_grown 104)) < 0
  /\ Monitor.write_speed
       (fst (Monitor.get_disk_metrics Scenario.monitor0 40
               Scenario.read_reset_write_grown 104))
     = inject_Z (9000000 - 5000000) / (104 - 100)
  /\ Gui.download_speed
       (fst (Gui.get_network_metrics Scenario.gui0
               Scenario.net_after_reset 104)) < 0.
Proof.
  assert (Hm : 0 < 104 - Monitor.prev_time Scenario.monitor0)
    by (vm_compute; reflexivity).
  assert (Hg : 0 < 104 - Gui.prev_time Scenario.gui0)
    by (vm_compute; reflexivity).
  pose proof (counter_reset_rate_is_negative
                Scenario.monitor0 Scenario.gui0 40
                Scenario.read_reset_write_grown Scenario.net_after_reset 104
                Hm Hg) as [[[_ Hread] [[Hwrite _] _]] [_ [_ [_ [_ Hdown]]]]].
  exact (conj Hm (conj Hg (conj (Hread eq_refl)
           (conj Hwrite (Hdown eq_refl))))).
Defined.

(** The same reset in double precision: the interpreter's quotient is
    -1000000.0. *)
Example b64_counter_reset_rate :
  Binary64.rate 1000000 5000000 4 = (-1000000)%float.
Proof. vm_compute. reflexivity. Qed.

(** ** The classifiers *)

(** A reading that reaches a cutoff still reaches it after it grows. *)
Lemma ge_monotone (v1 v2 c : Q) :
  v1 <= v2 -> Py.ge v1 c = true -> Py.ge v2 c = true.
Proof.
  rewrite !ge_true_iff. intros H12 H1. now apply Qle_trans with v1.
Qed.

(** Case analysis on every cutoff test of the goal. *)
Ltac split_tests :=
  repeat match goal with
         | |- context [Py.ge ?v ?c] =>
             let E := fresh "E" in destruct (Py.ge v c) eqn:E
         | |- context [Py.le ?v ?c] =>
             let E := fresh "E" in destruct (Py.le v c) eqn:E
         end.

(** C5.  Both classifiers return [UNKNOWN] exactly when the value is
    absent, for every metric name: a present number is never [UNKNOWN]. *)
Theorem unknown_iff_absent :
  forall (metric_type : string) (value : option Q),
    (fst (Monitor.get_status_and_color metric_type value) = UNKNOWN
     <-> value = None)
    /\ (Gui.get_status_text metric_type value = UNKNOWN <-> value = None).
Proof.
  intros metric_type [v|]; split; split; intros H;
    try reflexivity; try discriminate H; exfalso; revert H.
  - unfold Monitor.get_status_and_color.
    repeat match goal with
           | |- context [if ?b then _ else _] => destruct b
           end; discriminate.
  - unfold Gui.get_status_text.
    repeat match goal with
           | |- context [if ?b then _ else _] => destruct b
           end; discriminate.
Qed.

(** C7.  For the four ascending metrics the terminal classifier is
    monotone: a larger reading never gets a less severe band. *)
Theorem classifier_monotone :
  forall (metric_type : string) (v1 v2 : Q),
    In metric_type ["cpu"; "memory"; "disk"; "temperature"] ->
    v1 <= v2 ->
    (severity (fst (Monitor.get_status_and_color metric_type (Some v1)))
     <= severity (fst (Monitor.get_status_and_color metric_type (Some v2))))%nat.
Proof.
  intros metric_type v1 v2 Hin Hle.
  assert (Hmono : forall c, Py.ge v1 c = true -> Py.ge v2 c = false -> False).
  { intros c H1 H2. rewrite (ge_monotone v1 v2 c Hle H1) in H2. discriminate. }
  simpl in Hin.
  destruct Hin as [<- | [<- | [<- | [<- | []]]]];
    unfold Monitor.get_status_and_color; simpl;
    split_tests; simpl; try lia;
    exfalso; eauto using Hmono.
Qed.

Lemma classifier_monotone_witness :
  In "cpu" ["cpu"; "memory"; "disk"; "temperature"]
  /\ 58 <= 70
  /\ (severity (fst (Monitor.get_status_and_color "cpu" (Some 58%Q)))
      <= severity (fst (Monitor.get_status_and_color "cpu" (Some 70%Q))))%nat.
Proof.
  assert (Hin : In "cpu" ["cpu"; "memory"; "disk"; "temperature"])
    by (left; reflexivity).
  assert (Hle : 58 <= 70) by (vm_compute; discriminate).
  exact (conj Hin (conj Hle (classifier_monotone "cpu" 58 70 Hin Hle))).
Defined.

(** The two classifiers agree on the metrics both of them know. *)
Lemma classifiers_agree_off_temperature :
  forall (metric_type : string) (value : option Q),
    In metric_type ["cpu"; "memory"; "disk"; "battery"] ->
    fst (Monitor.get_status_and_color metric_type value)
    = Gui.get_status_text metric_type value.
Proof.
  intros metric_type [v|] Hin; [|reflexivity].
  simpl in Hin.
  destruct Hin as [<- | [<- | [<- | [<- | []]]]];
    unfold Monitor.get_status_and_color, Gui.get_status_text; simpl;
    change (getitem Gui.THRESHOLDS ?k) with (getitem Monitor.THRESHOLDS k);
    split_tests; reflexivity.
Qed.

(** C9 fails on the code: [get_status_text] has no temperature branch.
    At 90 degrees the terminal monitor reports [WARNING], the GUI's colour
    routine picks the warning colour, and the GUI's text routine says
    [HEALTHY]. *)
Theorem classifiers_differ_on_temperature :
  fst (Monitor.get_status_and_color "temperature" (Some 90)) = WARNING
  /\ Gui.get_status_color "temperature" (Some 90) = COLOR_WARNING
  /\ Gui.get_status_text "temperature" (Some 90) = HEALTHY
  /\ fst (Monitor.get_status_and_color "temperature" (Some 90))
     <> Gui.get_status_text "temperature" (Some 90).
Proof.
  repeat split. vm_compute. discriminate.
Qed.

(** ** The history windows *)

Section Window.

Context {A : Type}.

Lemma tl_skipn (k : nat) (l : list A) : tl (skipn k l) = skipn (S k) l.
Proof.
  change (S k) with (1 + k)%nat. rewrite <- skipn_skipn.
  now destruct (skipn k l).
Qed.

Lemma last_slice_length (n : nat) (l : list A) :
  List.length (Py.last_slice n l) = Nat.min n (List.length l).
Proof.
  unfold Py.last_slice. rewrite length_skipn. lia.
Qed.

Lemma last_slice_short (n : nat) (l : list A) :
  (List.length l <= n)%nat -> Py.last_slice n l = l.
Proof.
  intros H. unfold Py.last_slice.
  replace (List.length l - n)%nat with 0%nat by lia. reflexivity.
Qed.

(** The last [n] elements after one more element arrived. *)
Lemma last_slice_snoc (n : nat) (l : list A) (x : A) :
  Py.last_slice (S n) (l ++ [x]) = (Py.last_slice n l ++ [x])%list.
Proof.
  unfold Py.last_slice. rewrite last_length, skipn_app.
  replace (S (List.length l) - S n)%nat with (List.length l - n)%nat by lia.
  replace (List.length l - n - List.length l)%nat with 0%nat by lia.
  reflexivity.
Qed.

End Window.

(** One append keeps a window that holds the last [history_max] values of
    a stream the window of the stream with the new value added. *)
Lemma append_pop0_last_slice (history_max : nat) (xs : list Q) (x : Q) :
  Monitor.append_pop0 history_max (Py.last_slice history_max xs) x
  = Py.last_slice history_max (xs ++ [x]).
Proof.
  unfold Monitor.append_pop0.
  rewrite last_length, last_slice_length.
  destruct (Nat.le_gt_cases history_max (List.length xs)) as [Hfull | Hroom].
  - replace (history_max <? S (Nat.min history_max (List.length xs)))%nat
      with true by (symmetry; apply Nat.ltb_lt; lia).
    unfold Py.last_slice. rewrite last_length.
    replace (S (List.length xs) - history_max)%nat
      with (S (List.length xs - history_max)) by lia.
    rewrite <- tl_skipn, skipn_app.
    replace (List.length xs - history_max - List.length xs)%nat
      with 0%nat by lia.
    reflexivity.
  - replace (history_max <? S (Nat.min history_max (List.length xs)))%nat
      with false by (symmetry; apply Nat.ltb_ge; lia).
    rewrite !last_slice_short; [reflexivity | rewrite last_length; lia | lia].
Qed.

(** A full window loses its oldest entry and gains the new one at the
    end. *)
Lemma append_pop0_full (history_max : nat) (h : list Q) (x : Q) :
  (0 < history_max)%nat ->
  List.length h = history_max ->
  Monitor.append_pop0 history_max h x = (tl h ++ [x])%list.
Proof.
  intros Hpos <-. unfold Monitor.append_pop0. rewrite last_length.
  replace (List.length h <? S (List.length h))%nat
    with true by (symmetry; apply Nat.ltb_lt; lia).
  destruct h as [|a h]; [simpl in Hpos; lia | reflexivity].
Qed.

(** A window with room keeps everything. *)
Lemma append_pop0_room (history_max : nat) (h : list Q) (x : Q) :
  (List.length h < history_max)%nat ->
  Monitor.append_pop0 history_max h x = (h ++ [x])%list.
Proof.
  intros H. unfold Monitor.append_pop0. rewrite last_length.
  replace (history_max <? S (List.length h))%nat
    with false by (symmetry; apply Nat.ltb_ge; lia).
  reflexivity.
Qed.

(** The state one refresh leaves behind. *)
Lemma display_dashboard_state (self : Monitor.state) (s : Monitor.sample) :
  snd (Monitor.display_dashboard self s)
  = let h := Monitor.health_history self in
    let m := Monitor.history_max self in
    Monitor.mk_state
      (Monitor.s_disk_io s) (Monitor.s_net_io s) (Monitor.s_time_end s)
      (Monitor.mk_history
         (Monitor.append_pop0 m (Monitor.h_cpu h) (Monitor.s_cpu_avg s))
         (Monitor.append_pop0 m (Monitor.h_memory h) (Monitor.s_mem_percent s))
         (Monitor.append_pop0 m (Monitor.h_disk h) (Monitor.s_disk_percent s))
         (match Monitor.s_temp s with
          | Some t => Monitor.append_pop0 m (Monitor.h_temperature h) t
          | None => Monitor.h_temperature h
          end))
      m.
Proof.
  unfold Monitor.display_dashboard, Monitor.get_cpu_metrics,
    Monitor.get_memory_metrics, Monitor.get_disk_metrics,
    Monitor.get_network_metrics.
  destruct (Monitor.s_temp s); reflexivity.
Qed.

Lemma run_cons (self : Monitor.state) (s : Monitor.sample)
      (rest : list Monitor.sample) :
  Monitor.run self (s :: rest)
  = (fst (Monitor.display_dashboard self s)
       :: fst (Monitor.run (snd (Monitor.display_dashboard self s)) rest),
     snd (Monitor.run (snd (Monitor.display_dashboard self s)) rest)).
Proof.
  cbn [Monitor.run].
  destruct (Monitor.display_dashboard self s) as [d self']. cbn [fst snd].
  destruct (Monitor.run self' rest) as [ds self'']. reflexivity.
Qed.

Lemma run_tracks (samples : list Monitor.sample) :
  forall (self : Monitor.state) (cpus mems disks temps : list Q),
    Rule.tracks self cpus mems disks temps ->
    Monitor.history_max (snd (Monitor.run self samples))
    = Monitor.history_max self
    /\ Rule.tracks (snd (Monitor.run self samples))
              (cpus ++ map Monitor.s_cpu_avg samples)
              (mems ++ map Monitor.s_mem_percent samples)
              (disks ++ map Monitor.s_disk_percent samples)
              (temps ++ Rule.present_temperatures samples).
Proof.
  induction samples as [|s rest IH]; intros self cpus mems disks temps Ht.
  - simpl. rewrite !app_nil_r. now split.
  - rewrite run_cons. cbn [snd].
    destruct Ht as (Hc & Hm & Hd & Ht).
    specialize (IH (snd (Monitor.display_dashboard self s))
                   (cpus ++ [Monitor.s_cpu_avg s])
                   (mems ++ [Monitor.s_mem_percent s])
                   (disks ++ [Monitor.s_disk_percent s])
                   (temps ++ match Monitor.s_temp s with
                             | Some t => [t]
                             | None => []
                             end))%list.
    rewrite display_dashboard_state in IH. cbn zeta in IH.
    destruct IH as [IHm IHt].
    + unfold Rule.tracks. cbn [Monitor.health_history Monitor.history_max
                          Monitor.h_cpu Monitor.h_memory Monitor.h_disk
                          Monitor.h_temperature].
      rewrite Hc, Hm, Hd, Ht, !append_pop0_last_slice.
      repeat split.
      destruct (Monitor.s_temp s).
      * apply append_pop0_last_slice.
      * now rewrite app_nil_r.
    + rewrite display_dashboard_state. cbn zeta.
      split; [exact IHm|].
      cbn [map Rule.present_temperatures flat_map].
      change (flat_map _ rest) with (Rule.present_temperatures rest).
      repeat rewrite <- app_assoc in IHt. exact IHt.
Qed.

(** C6.  After any number of refreshes since construction, none of the
    four windows is longer than the capacity 5, and each holds exactly the
    5 most recent values appended to it, oldest first; an append to a full
    window drops the oldest entry. *)
Theorem history_windows_bounded_fifo :
  forall (d : disk_io) (n : net_io) (now : Q) (samples : list Monitor.sample),
    ((List.length (Monitor.h_cpu (Rule.windows_after d n now samples)) <= 5
      /\ List.length (Monitor.h_memory (Rule.windows_after d n now samples)) <= 5
      /\ List.length (Monitor.h_disk (Rule.windows_after d n now samples)) <= 5
      /\ List.length (Monitor.h_temperature (Rule.windows_after d n now samples))
         <= 5)%nat)
    /\ (Monitor.h_cpu (Rule.windows_after d n now samples)
        = Py.last_slice 5 (map Monitor.s_cpu_avg samples)
        /\ Monitor.h_memory (Rule.windows_after d n now samples)
           = Py.last_slice 5 (map Monitor.s_mem_percent samples)
        /\ Monitor.h_disk (Rule.windows_after d n now samples)
           = Py.last_slice 5 (map Monitor.s_disk_percent samples)
        /\ Monitor.h_temperature (Rule.windows_after d n now samples)
           = Py.last_slice 5 (Rule.present_temperatures samples))
    /\ (forall a b c e f x : Q,
          Monitor.append_pop0 5 [a; b; c; e; f] x = [b; c; e; f; x]).
Proof.
  intros d n now samples.
  destruct (run_tracks samples (Monitor.init d n now) [] [] [] [])
    as [Hmax (Hc & Hm & Hd & Ht)].
  { repeat split. }
  change (Monitor.history_max (Monitor.init d n now)) with 5%nat in Hmax.
  rewrite Hmax in Hc, Hm, Hd, Ht. simpl app in Hc, Hm, Hd, Ht.
  unfold Rule.windows_after.
  split; [|split; [now repeat split|reflexivity]].
  rewrite Hc, Hm, Hd, Ht, !last_slice_length.
  repeat split; apply Nat.le_min_l.
Qed.

(** Only a present temperature reading reaches the temperature window. *)
Lemma present_temperature_is_appended
      (self : Monitor.state) (cpu_avg t : Q) :
  Monitor.h_temperature
    (Monitor.health_history
       (snd (Monitor.get_cpu_metrics self cpu_avg (Some t))))
  = Monitor.append_pop0 (Monitor.history_max self)
      (Monitor.h_temperature (Monitor.health_history self)) t.
Proof. reflexivity. Qed.

(** C10.  A refresh whose temperature reading is absent leaves the
    temperature window as it was: neither the CPU collector nor the rest
    of the refresh touches it. *)
Theorem absent_temperature_leaves_window :
  forall (self : Monitor.state) (s : Monitor.sample),
    Monitor.s_temp s = None ->
    Monitor.h_temperature
      (Monitor.health_history
         (snd (Monitor.get_cpu_metrics self (Monitor.s_cpu_avg s)
                 (Monitor.s_temp s))))
    = Monitor.h_temperature (Monitor.health_history self)
    /\ Monitor.h_temperature
         (Monitor.health_history (snd (Monitor.display_dashboard self s)))
       = Monitor.h_temperature (Monitor.health_history self).
Proof.
  intros self s Hnone. split.
  - rewrite Hnone. reflexivity.
  - rewrite display_dashboard_state, Hnone. reflexivity.
Qed.

Lemma absent_temperature_leaves_window_witness :
  Monitor.s_temp (Scenario.cpu_sample 70 60) = None
  /\ Monitor.h_temperature
       (Monitor.health_history
          (snd (Monitor.display_dashboard Scenario.after_warm
                  (Scenario.cpu_sample 70 60))))
     = [65].
Proof.
  split; [reflexivity|].
  exact (proj2 (absent_temperature_leaves_window
                  Scenario.after_warm (Scenario.cpu_sample 70 60)
                  eq_refl)).
Defined.

(** ** The trend *)

(** What [analyze_trend] computes from the window it finds: nothing below
    two entries, otherwise the deadband around the mean of the last three
    entries of the window. *)
Lemma analyze_trend_window
      (self : Monitor.state) (metric_type : string) (v : Q) :
  Monitor.analyze_trend self metric_type (Some v)
  = if (List.length (Monitor.get (Monitor.health_history self) metric_type [])
        <? 2)%nat
    then InsufficientData
    else Rule.deadband v
           (Rule.mean
              (Py.last_slice 3
                 (Monitor.get (Monitor.health_history self) metric_type []))).
Proof.
  unfold Monitor.analyze_trend, Rule.deadband, Rule.mean.
  set (history := Monitor.get (Monitor.health_history self) metric_type []).
  replace (Py.len history <? 2)%Z with (List.length history <? 2)%nat.
  - replace (Z.min 3 (Py.len history))
      with (Py.len (Py.last_slice 3 history)); [reflexivity|].
    unfold Py.len. rewrite last_slice_length. lia.
  - unfold Py.len.
    destruct (Nat.ltb_spec (List.length history) 2);
      symmetry; [apply Z.ltb_lt | apply Z.ltb_ge]; lia.
Qed.

(** The window a refresh leaves for a metric: the reading appended to the
    window it found, when the sample carries a reading for that name. *)
Lemma window_after_refresh
      (self : Monitor.state) (s : Monitor.sample)
      (metric_type : string) (v : Q) :
  Rule.reading s metric_type = Some v ->
  Monitor.get
    (Monitor.health_history (snd (Monitor.display_dashboard self s)))
    metric_type []
  = Monitor.append_pop0 (Monitor.history_max self)
      (Monitor.get (Monitor.health_history self) metric_type []) v.
Proof.
  rewrite display_dashboard_state. cbn zeta.
  unfold Rule.reading, Monitor.get.
  cbn [Monitor.health_history Monitor.h_cpu Monitor.h_memory Monitor.h_disk
       Monitor.h_temperature].
  destruct (String.eqb metric_type "cpu");
    [intros [= <-]; reflexivity|].
  destruct (String.eqb metric_type "memory");
    [intros [= <-]; reflexivity|].
  destruct (String.eqb metric_type "disk");
    [intros [= <-]; reflexivity|].
  destruct (String.eqb metric_type "temperature");
    [intros ->; reflexivity | discriminate].
Qed.

(** The last three entries of a window that was just appended to: the new
    value behind the last two entries of the window before. *)
Lemma last_three_after_append (history_max : nat) (h : list Q) (v : Q) :
  (3 <= history_max)%nat ->
  Py.last_slice 3 (Monitor.append_pop0 history_max h v)
  = (Py.last_slice 2 h ++ [v])%list.
Proof.
  intros Hmax. unfold Monitor.append_pop0. rewrite last_length.
  destruct (Nat.ltb_spec history_max (S (List.length h))) as [Hpop | Hkeep].
  - rewrite <- last_slice_snoc.
    unfold Py.last_slice at 1.
    replace (tl (h ++ [v])) with (skipn 1 (h ++ [v]))
      by (now destruct (h ++ [v])%list).
    rewrite length_skipn, skipn_skipn, last_length.
    unfold Py.last_slice. rewrite last_length. f_equal. lia.
  - apply last_slice_snoc.
Qed.

(** The values a refresh prints for the four tracked metrics are the
    classifier's band for the reading and the trend computed on the state
    the collectors left. *)
Lemma display_dashboard_values (self : Monitor.state) (s : Monitor.sample) :
  let d := fst (Monitor.display_dashboard self s) in
  let self' := snd (Monitor.display_dashboard self s) in
  (Monitor.cpu_status d
   = fst (Monitor.get_status_and_color "cpu" (Some (Monitor.s_cpu_avg s)))
   /\ Monitor.cpu_trend d
      = Monitor.analyze_trend self' "cpu" (Some (Monitor.s_cpu_avg s)))
  /\ (Monitor.mem_status d
      = fst (Monitor.get_status_and_color "memory"
               (Some (Monitor.s_mem_percent s)))
      /\ Monitor.mem_trend d
         = Monitor.analyze_trend self' "memory"
             (Some (Monitor.s_mem_percent s)))
  /\ (Monitor.disk_status d
      = fst (Monitor.get_status_and_color "disk"
               (Some (Monitor.s_disk_percent s)))
      /\ Monitor.disk_trend d
         = Monitor.analyze_trend self' "disk"
             (Some (Monitor.s_disk_percent s)))
  /\ Monitor.temp_status_trend d
     = match Monitor.s_temp s with
       | Some t =>
           Some (fst (Monitor.get_status_and_color "temperature" (Some t)),
                 Monitor.analyze_trend self' "temperature" (Some t))
       | None => None
       end.
Proof.
  unfold Monitor.display_dashboard, Monitor.get_cpu_metrics,
    Monitor.get_memory_metrics, Monitor.get_disk_metrics,
    Monitor.get_network_metrics.
  cbn [fst snd Monitor.cpu_status Monitor.cpu_trend Monitor.mem_status
       Monitor.mem_trend Monitor.disk_status Monitor.disk_trend
       Monitor.temp_status_trend Monitor.average Monitor.temperature
       Monitor.percent].
  repeat split.
Qed.

Lemma dashboard_cpu_status (self : Monitor.state) (s : Monitor.sample) :
  Monitor.cpu_status (fst (Monitor.display_dashboard self s))
  = fst (Monitor.get_status_and_color "cpu" (Some (Monitor.s_cpu_avg s))).
Proof. apply (display_dashboard_values self s). Qed.

Lemma dashboard_cpu_trend (self : Monitor.state) (s : Monitor.sample) :
  Monitor.cpu_trend (fst (Monitor.display_dashboard self s))
  = Monitor.analyze_trend (snd (Monitor.display_dashboard self s)) "cpu"
      (Some (Monitor.s_cpu_avg s)).
Proof. apply (display_dashboard_values self s). Qed.

(** An append leaves at least two entries in a window that had one. *)
Lemma append_pop0_two (history_max : nat) (a : Q) (h : list Q) (v : Q) :
  (3 <= history_max)%nat ->
  (2 <= List.length (Monitor.append_pop0 history_max (a :: h) v))%nat.
Proof.
  intros Hmax. unfold Monitor.append_pop0. rewrite last_length.
  destruct (Nat.ltb_spec history_max (S (List.length (a :: h)))) as [Hpop|_].
  - simpl in *. rewrite last_length. lia.
  - rewrite last_length. simpl. lia.
Qed.

(** In the exact model: the trend of a refresh, from the window the
    refresh found. *)
Lemma trend_of_refresh :
  forall (self : Monitor.state) (s : Monitor.sample)
         (metric_type : string) (v : Q),
    (3 <= Monitor.history_max self)%nat ->
    Rule.reading s metric_type = Some v ->
    Monitor.analyze_trend (snd (Monitor.display_dashboard self s))
      metric_type (Some v)
    = match Monitor.get (Monitor.health_history self) metric_type [] with
      | [] => InsufficientData
      | _ :: _ =>
          Rule.deadband v
            (Rule.mean
               (Py.last_slice 2
                  (Monitor.get (Monitor.health_history self) metric_type [])
                ++ [v])%list)
      end.
Proof.
  intros self s metric_type v Hmax Hread.
  rewrite analyze_trend_window, (window_after_refresh self s _ v Hread).
  destruct (Monitor.get (Monitor.health_history self) metric_type [])
    as [|a h] eqn:Hprior.
  - rewrite append_pop0_room by (simpl; lia). reflexivity.
  - pose proof (append_pop0_two (Monitor.history_max self) a h v Hmax) as H2.
    apply Nat.ltb_ge in H2. rewrite H2.
    now rewrite last_three_after_append.
Qed.

Lemma deadband_in_three (v m : Q) :
  In (Rule.deadband v m) [Increasing; Decreasing; Stable].
Proof.
  unfold Rule.deadband.
  destruct (Py.gt v (m * 1.1)); [simpl; tauto|].
  destruct (Py.lt v (m * 0.9)); simpl; tauto.
Qed.

(** *** The trend in double precision *)

Lemma b64_append_pop0_room (history_max : nat) (h : list float) (x : float) :
  (List.length h < history_max)%nat ->
  Binary64.append_pop0 history_max h x = (h ++ [x])%list.
Proof.
  intros H. unfold Binary64.append_pop0. rewrite last_length.
  replace (history_max <? S (List.length h))%nat
    with false by (symmetry; apply Nat.ltb_ge; lia).
  reflexivity.
Qed.

Lemma b64_append_pop0_two
      (history_max : nat) (a : float) (h : list float) (v : float) :
  (3 <= history_max)%nat ->
  (2 <= List.length (Binary64.append_pop0 history_max (a :: h) v))%nat.
Proof.
  intros Hmax. unfold Binary64.append_pop0. rewrite last_length.
  destruct (Nat.ltb_spec history_max (S (List.length (a :: h)))) as [Hpop|_].
  - simpl in *. rewrite last_length. lia.
  - rewrite last_length. simpl. lia.
Qed.

(** The last three entries of a window that was just appended to: the new
    value behind the last two entries of the window before. *)
Lemma b64_last_three_after_append
      (history_max : nat) (h : list float) (v : float) :
  (3 <= history_max)%nat ->
  Py.last_slice 3 (Binary64.append_pop0 history_max h v)
  = (Py.last_slice 2 h ++ [v])%list.
Proof.
  intros Hmax. unfold Binary64.append_pop0. rewrite last_length.
  destruct (Nat.ltb_spec history_max (S (List.length h))) as [Hpop | Hkeep].
  - rewrite <- last_slice_snoc.
    unfold Py.last_slice at 1.
    replace (tl (h ++ [v])) with (skipn 1 (h ++ [v]))
      by (now destruct (h ++ [v])%list).
    rewrite length_skipn, skipn_skipn, last_length.
    unfold Py.last_slice. rewrite last_length. f_equal. lia.
  - apply last_slice_snoc.
Qed.

Section Interpreter.

Variable py_sum : list float -> float.

(** What [analyze_trend] computes from the window it finds. *)
Lemma b64_analyze_trend_window
      (self : Binary64.state) (metric_type : string) (v : float) :
  Binary64.analyze_trend py_sum self metric_type (Some v)
  = if (List.length
          (Binary64.get (Binary64.health_history self) metric_type [])
        <? 2)%nat
    then InsufficientData
    else Binary64.deadband v
           (Binary64.mean py_sum
              (Py.last_slice 3
                 (Binary64.get (Binary64.health_history self)
                    metric_type []))).
Proof.
  unfold Binary64.analyze_trend, Binary64.deadband, Binary64.mean.
  set (history := Binary64.get (Binary64.health_history self) metric_type []).
  replace (Py.len history <? 2)%Z with (List.length history <? 2)%nat.
  - replace (Z.min 3 (Py.len history))
      with (Py.len (Py.last_slice 3 history)); [reflexivity|].
    unfold Py.len. rewrite last_slice_length. lia.
  - unfold Py.len.
    destruct (Nat.ltb_spec (List.length history) 2);
      symmetry; [apply Z.ltb_lt | apply Z.ltb_ge]; lia.
Qed.

(** The state one refresh leaves behind. *)
Lemma b64_display_dashboard_state
      (self : Binary64.state) (s : Binary64.sample) :
  snd (Binary64.display_dashboard py_sum self s)
  = let h := Binary64.health_history self in
    let m := Binary64.history_max self in
    Binary64.mk_state
      (Binary64.s_disk_io s) (Binary64.s_net_io s) (Binary64.s_time_end s)
      (Binary64.mk_history
         (Binary64.append_pop0 m (Binary64.h_cpu h) (Binary64.s_cpu_avg s))
         (Binary64.append_pop0 m (Binary64.h_memory h)
            (Binary64.s_mem_percent s))
         (Binary64.append_pop0 m (Binary64.h_disk h)
            (Binary64.s_disk_percent s))
         (match Binary64.s_temp s with
          | Some t => Binary64.append_pop0 m (Binary64.h_temperature h) t
          | None => Binary64.h_temperature h
          end))
      m.
Proof.
  unfold Binary64.display_dashboard, Binary64.get_cpu_metrics,
    Binary64.get_memory_metrics, Binary64.get_disk_metrics,
    Binary64.get_network_metrics.
  destruct (Binary64.s_temp s); reflexivity.
Qed.

(** The window a refresh leaves for a metric: the reading appended to the
    window it found. *)
Lemma b64_window_after_refresh
      (self : Binary64.state) (s : Binary64.sample)
      (metric_type : string) (v : float) :
  Binary64.reading s metric_type = Some v ->
  Binary64.get
    (Binary64.health_history (snd (Binary64.display_dashboard py_sum self s)))
    metric_type []
  = Binary64.append_pop0 (Binary64.history_max self)
      (Binary64.get (Binary64.health_history self) metric_type []) v.
Proof.
  rewrite b64_display_dashboard_state. cbn zeta.
  unfold Binary64.reading, Binary64.get.
  cbn [Binary64.health_history Binary64.h_cpu Binary64.h_memory
       Binary64.h_disk Binary64.h_temperature].
  destruct (String.eqb metric_type "cpu");
    [intros [= <-]; reflexivity|].
  destruct (String.eqb metric_type "memory");
    [intros [= <-]; reflexivity|].
  destruct (String.eqb metric_type "disk");
    [intros [= <-]; reflexivity|].
  destruct (String.eqb metric_type "temperature");
    [intros ->; reflexivity | discriminate].
Qed.

(** The trends a refresh prints are computed on the state the collectors
    left. *)
Lemma b64_display_dashboard_trends
      (self : Binary64.state) (s : Binary64.sample) :
  Binary64.cpu_trend (fst (Binary64.display_dashboard py_sum self s))
  = Binary64.analyze_trend py_sum
      (snd (Binary64.display_dashboard py_sum self s)) "cpu"
      (Some (Binary64.s_cpu_avg s))
  /\ Binary64.mem_trend (fst (Binary64.display_dashboard py_sum self s))
     = Binary64.analyze_trend py_sum
         (snd (Binary64.display_dashboard py_sum self s)) "memory"
         (Some (Binary64.s_mem_percent s))
  /\ Binary64.disk_trend (fst (Binary64.display_dashboard py_sum self s))
     = Binary64.analyze_trend py_sum
         (snd (Binary64.display_dashboard py_sum self s)) "disk"
         (Some (Binary64.s_disk_percent s))
  /\ Binary64.temp_status_trend
       (fst (Binary64.display_dashboard py_sum self s))
     = match Binary64.s_temp s with
       | Some t =>
           Some (fst (Binary64.get_status_and_color "temperature" (Some t)),
                 Binary64.analyze_trend py_sum
                   (snd (Binary64.display_dashboard py_sum self s))
                   "temperature" (Some t))
       | None => None
       end.
Proof.
  unfold Binary64.display_dashboard, Binary64.get_cpu_metrics,
    Binary64.get_memory_metrics, Binary64.get_disk_metrics,
    Binary64.get_network_metrics.
  cbn [fst snd Binary64.cpu_trend Binary64.mem_trend Binary64.disk_trend
       Binary64.temp_status_trend Binary64.average Binary64.temperature
       Binary64.percent].
  repeat split.
Qed.

End Interpreter.

(** The rounding of the interpreter, on the window 7.5, 10, 7.5 with the
    reading 7.5 last: the mean 25/3 rounds to 8.333333333333334 and its
    product by 0.9 to 7.500000000000001, so the verdict is Decreasing,
    where exact arithmetic would give Stable. *)
Example rounding_decides_the_verdict :
  Binary64.analyze_trend Binary64.sum_left
    (Binary64.mk_state (mk_disk_io 0 0) (mk_net_io 0 0) 0
       (Binary64.mk_history [7.5; 10; 7.5]%float [] [] []) 5)
    "cpu" (Some 7.5%float)
  = Decreasing.
Proof. vm_compute. reflexivity. Qed.

(** C3, as the spec states it, fails.  After three refreshes at 50% the
    window is 50, 50, 50; a fourth refresh reads 56%.  The mean of the
    three entries preceding the current one is 50, and 56 is more than 10%
    above it (above 55.00000000000001), yet the verdict of the refresh is
    Stable: the code averages 50, 50, 56.  Every sum here is exact, so
    the built-in sum of any interpreter version gives the same. *)
Lemma trend_preceding_mean_counterexample :
  Binary64.h_cpu (Binary64.health_history Binary64.after_three_50)
  = [50; 50; 50]%float
  /\ Binary64.deadband 56
       (Binary64.mean Binary64.sum_left [50; 50; 50]%float) = Increasing
  /\ Binary64.cpu_trend
       (fst (Binary64.display_dashboard Binary64.sum_left
               Binary64.after_three_50 (Binary64.cpu_sample 56 160)))
     = Stable
  /\ Binary64.cpu_trend
       (fst (Binary64.display_dashboard Binary64.sum_left
               Binary64.after_three_50 (Binary64.cpu_sample 56 160)))
     <> Binary64.deadband 56
          (Binary64.mean Binary64.sum_left
             (Py.last_slice 3
                (Binary64.h_cpu
                   (Binary64.health_history Binary64.after_three_50)))).
Proof.
  repeat split; try (vm_compute; reflexivity).
  vm_compute. discriminate.
Qed.

(** C3, amended.  In the arithmetic of the interpreter (binary64, with
    whatever the built-in [sum] computes): the trends a refresh prints
    are computed on the windows to which the current readings have already
    been appended.  For a metric whose window had no entry the verdict is
    "Insufficient data"; otherwise the current value is compared with the
    mean of the current value and the (up to) two entries preceding it:
    Increasing when it is greater than that mean times 1.1, Decreasing
    when it is less than that mean times 0.9, Stable otherwise. *)
Theorem trend_compares_with_mean_including_current :
  forall (py_sum : list float -> float)
         (self : Binary64.state) (s : Binary64.sample)
         (metric_type : string) (v : float),
    (3 <= Binary64.history_max self)%nat ->
    Binary64.reading s metric_type = Some v ->
    Binary64.analyze_trend py_sum
      (snd (Binary64.display_dashboard py_sum self s)) metric_type (Some v)
    = match Binary64.get (Binary64.health_history self) metric_type [] with
      | [] => InsufficientData
      | _ :: _ =>
          Binary64.deadband v
            (Binary64.mean py_sum
               (Py.last_slice 2
                  (Binary64.get (Binary64.health_history self)
                     metric_type [])
                ++ [v])%list)
      end
    /\ Binary64.cpu_trend (fst (Binary64.display_dashboard py_sum self s))
       = Binary64.analyze_trend py_sum
           (snd (Binary64.display_dashboard py_sum self s)) "cpu"
           (Some (Binary64.s_cpu_avg s))
    /\ Binary64.mem_trend (fst (Binary64.display_dashboard py_sum self s))
       = Binary64.analyze_trend py_sum
           (snd (Binary64.display_dashboard py_sum self s)) "memory"
           (Some (Binary64.s_mem_percent s))
    /\ Binary64.disk_trend (fst (Binary64.display_dashboard py_sum self s))
       = Binary64.analyze_trend py_sum
           (snd (Binary64.display_dashboard py_sum self s)) "disk"
           (Some (Binary64.s_disk_percent s)).
Proof.
  intros py_sum self s metric_type v Hmax Hread.
  split.
  - rewrite b64_analyze_trend_window,
      (b64_window_after_refresh py_sum self s _ v Hread).
    destruct (Binary64.get (Binary64.health_history self) metric_type [])
      as [|a h] eqn:Hprior.
    + rewrite b64_append_pop0_room by (simpl; lia). reflexivity.
    + pose proof (b64_append_pop0_two (Binary64.history_max self) a h v Hmax)
        as H2.
      apply Nat.ltb_ge in H2. rewrite H2.
      now rewrite b64_last_three_after_append.
  - destruct (b64_display_dashboard_trends py_sum self s)
      as (Hc & Hm & Hd & _).
    repeat split; assumption.
Qed.

Lemma trend_compares_with_mean_including_current_witness :
  (3 <= Binary64.history_max Binary64.after_three_50)%nat
  /\ Binary64.reading (Binary64.cpu_sample 56 160) "cpu" = Some 56%float
  /\ Binary64.analyze_trend Binary64.sum_left
       (snd (Binary64.display_dashboard Binary64.sum_left
               Binary64.after_three_50 (Binary64.cpu_sample 56 160)))
       "cpu" (Some 56%float)
     = Binary64.deadband 56
         (Binary64.mean Binary64.sum_left [50; 50; 56]%float).
Proof.
  assert (Hmax : (3 <= Binary64.history_max Binary64.after_three_50)%nat)
    by (vm_compute; lia).
  assert (Hread : Binary64.reading (Binary64.cpu_sample 56 160) "cpu"
                  = Some 56%float) by reflexivity.
  exact (conj Hmax (conj Hread
           (proj1 (trend_compares_with_mean_including_current
                     Binary64.sum_left Binary64.after_three_50
                     (Binary64.cpu_sample 56 160) "cpu" 56%float
                     Hmax Hread)))).
Defined.

(** C4.  For every metric name and every state of the windows, an absent
    reading is classified UNKNOWN, and its trend is the verdict
    INSUFFICIENT_DATA: [analyze_trend] answers "No data" before it looks at
    the window.  This holds for the terminal monitor in exact and in
    double-precision arithmetic, and the GUI's status text is UNKNOWN as
    well. *)
Theorem absent_reading_unknown_and_insufficient_data :
  forall (self : Monitor.state) (self64 : Binary64.state)
         (py_sum : list float -> float) (metric_type : string),
    fst (Monitor.get_status_and_color metric_type None) = UNKNOWN
    /\ Rule.verdict_of (Monitor.analyze_trend self metric_type None)
       = Rule.INSUFFICIENT_DATA
    /\ fst (Binary64.get_status_and_color metric_type None) = UNKNOWN
    /\ Rule.verdict_of (Binary64.analyze_trend py_sum self64 metric_type None)
       = Rule.INSUFFICIENT_DATA
    /\ Gui.get_status_text metric_type None = UNKNOWN.
Proof. intros self self64 py_sum metric_type. repeat split. Qed.

(** ** The first end-to-end scenario *)

Lemma run_cpu_status (samples : list Monitor.sample) :
  forall self : Monitor.state,
    map Monitor.cpu_status (fst (Monitor.run self samples))
    = map (fun v => fst (Monitor.get_status_and_color "cpu" (Some v)))
          (map Monitor.s_cpu_avg samples).
Proof.
  induction samples as [|s rest IH]; intros self; [reflexivity|].
  rewrite run_cons. cbn [fst map].
  now rewrite IH, dashboard_cpu_status.
Qed.

(** C2, as the spec states it, fails on the last band: 70 is below the CPU
    warning cutoff 80. *)
Lemma scenario1_counterexample :
  map Monitor.s_cpu_avg Scenario.scenario1 = [50; 55; 58; 70]
  /\ map Monitor.cpu_status
       (fst (Monitor.run Scenario.monitor0 Scenario.scenario1))
     <> [HEALTHY; HEALTHY; HEALTHY; WARNING].
Proof.
  split; [reflexivity|]. vm_compute. discriminate.
Qed.

(** C2, amended.  A new monitor (default thresholds, capacity 5) refreshed
    four times with CPU averages 50, 55, 58, 70 reports the bands HEALTHY,
    HEALTHY, HEALTHY, CAUTION, and the trend of the fourth refresh is
    [Increasing] (the first three: insufficient data, stable, stable). *)
Theorem scenario1_bands_and_trend :
  forall (d : disk_io) (n : net_io) (now : Q) (samples : list Monitor.sample),
    map Monitor.s_cpu_avg samples = [50; 55; 58; 70] ->
    map Monitor.cpu_status (fst (Monitor.run (Monitor.init d n now) samples))
    = [HEALTHY; HEALTHY; HEALTHY; CAUTION]
    /\ nth_error
         (map Monitor.cpu_trend
            (fst (Monitor.run (Monitor.init d n now) samples))) 3
       = Some Increasing
    /\ map Monitor.cpu_trend
         (fst (Monitor.run (Monitor.init d n now) samples))
       = [InsufficientData; Stable; Stable; Increasing].
Proof.
  intros d n now samples Hcpu.
  assert (Htrend :
            map Monitor.cpu_trend
              (fst (Monitor.run (Monitor.init d n now) samples))
            = [InsufficientData; Stable; Stable; Increasing]).
  { destruct samples as [|s1 [|s2 [|s3 [|s4 [|s5 rest]]]]];
      try discriminate Hcpu.
    injection Hcpu as H1 H2 H3 H4.
    rewrite !run_cons. cbn [Monitor.run fst snd map].
    rewrite !dashboard_cpu_trend, !analyze_trend_window.
    rewrite !display_dashboard_state. cbn zeta.
    unfold Monitor.get.
    cbn [String.eqb Ascii.eqb Bool.eqb Monitor.health_history Monitor.h_cpu
         Monitor.history_max Monitor.init].
    rewrite H1, H2, H3, H4. vm_compute. reflexivity. }
  split; [|split].
  - rewrite run_cpu_status, Hcpu. vm_compute. reflexivity.
  - rewrite Htrend. reflexivity.
  - exact Htrend.
Qed.

Lemma scenario1_bands_and_trend_witness :
  map Monitor.s_cpu_avg Scenario.scenario1 = [50; 55; 58; 70]
  /\ map Monitor.cpu_status
       (fst (Monitor.run Scenario.monitor0 Scenario.scenario1))
     = [HEALTHY; HEALTHY; HEALTHY; CAUTION]
  /\ nth_error
       (map Monitor.cpu_trend
          (fst (Monitor.run Scenario.monitor0 Scenario.scenario1))) 3
     = Some Increasing.
Proof.
  assert (Hcpu : map Monitor.s_cpu_avg Scenario.scenario1 = [50; 55; 58; 70])
    by reflexivity.
  destruct (scenario1_bands_and_trend
              (mk_disk_io 5000000 5000000) (mk_net_io 5000000 5000000) 100
              Scenario.scenario1 Hcpu) as [Hb [Ht _]].
  exact (conj Hcpu (conj Hb Ht)).
Defined.

(** * Further properties of the code *)

(** ** Rates *)

(** X2.  Two refreshes in a row: the speeds of the second are computed
    from the counters the first one read and from the time the first one
    stored at its end, not from anything the second one wrote. *)
Theorem second_refresh_uses_first_snapshot :
  forall (self : Monitor.state) (s1 s2 : Monitor.sample),
    Monitor.disk_speeds
      (fst (Monitor.display_dashboard
              (snd (Monitor.display_dashboard self s1)) s2))
    = (rate (read_bytes (Monitor.s_disk_io s2))
            (read_bytes (Monitor.s_disk_io s1))
            (Monitor.s_time_disk s2 - Monitor.s_time_end s1),
       rate (write_bytes (Monitor.s_disk_io s2))
            (write_bytes (Monitor.s_disk_io s1))
            (Monitor.s_time_disk s2 - Monitor.s_time_end s1))
    /\ Monitor.net_speeds
         (fst (Monitor.display_dashboard
                 (snd (Monitor.display_dashboard self s1)) s2))
       = (rate (bytes_recv (Monitor.s_net_io s2))
               (bytes_recv (Monitor.s_net_io s1))
               (Monitor.s_time_net s2 - Monitor.s_time_end s1),
          rate (bytes_sent (Monitor.s_net_io s2))
               (bytes_sent (Monitor.s_net_io s1))
               (Monitor.s_time_net s2 - Monitor.s_time_end s1)).
Proof.
  intros self s1 s2.
  rewrite (display_dashboard_state self s1). cbn zeta.
  split; reflexivity.
Qed.

(** ** Classifiers *)

(** Turn the cutoff tests of the context into facts about the order of
    [Q]. *)
Ltac tests_to_order :=
  repeat match goal with
         | H : Py.ge _ _ = true |- _ => apply ge_true_iff in H
         | H : Py.ge _ _ = false |- _ =>
             apply not_true_iff_false in H; rewrite ge_true_iff in H
         | H : Py.le _ _ = true |- _ => apply le_true_iff in H
         | H : Py.le _ _ = false |- _ =>
             apply not_true_iff_false in H; rewrite le_true_iff in H
         end.

Lemma ascending_chain_bands (caution warning critical : Z) (value : Q) :
  (caution <= warning)%Z -> (warning <= critical)%Z ->
  Shape.ascending_bands (inject_Z caution) (inject_Z warning)
    (inject_Z critical) value
    (if Py.ge value (inject_Z critical) then CRITICAL
     else if Py.ge value (inject_Z warning) then WARNING
     else if Py.ge value (inject_Z caution) then CAUTION
     else HEALTHY).
Proof.
  intros Hcw Hwk.
  rewrite Zle_Qle in Hcw, Hwk.
  unfold Shape.ascending_bands.
  split_tests; tests_to_order;
    repeat split; intros; try discriminate; try reflexivity;
    try lra; exfalso; try lra;
    repeat match goal with H : _ /\ _ |- _ => destruct H end; lra.
Qed.

Lemma descending_chain_bands (caution warning critical : Z) (value : Q) :
  (critical <= warning)%Z -> (warning <= caution)%Z ->
  Shape.descending_bands (inject_Z caution) (inject_Z warning)
    (inject_Z critical) value
    (if Py.le value (inject_Z critical) then CRITICAL
     else if Py.le value (inject_Z warning) then WARNING
     else if Py.le value (inject_Z caution) then CAUTION
     else HEALTHY).
Proof.
  intros Hkw Hwc.
  rewrite Zle_Qle in Hkw, Hwc.
  unfold Shape.descending_bands.
  split_tests; tests_to_order;
    repeat split; intros; try discriminate; try reflexivity;
    try lra; exfalso; try lra;
    repeat match goal with H : _ /\ _ |- _ => destruct H end; lra.
Qed.

(** The band of the terminal classifier, without the colour. *)
Lemma status_of_chain (metric_type : string) (value : Q) :
  fst (Monitor.get_status_and_color metric_type (Some value))
  = if String.eqb metric_type "cpu" then
      if Py.ge value (inject_Z 90) then CRITICAL
      else if Py.ge value (inject_Z 80) then WARNING
      else if Py.ge value (inject_Z 60) then CAUTION else HEALTHY
    else if String.eqb metric_type "memory" then
      if Py.ge value (inject_Z 95) then CRITICAL
      else if Py.ge value (inject_Z 85) then WARNING
      else if Py.ge value (inject_Z 70) then CAUTION else HEALTHY
    else if String.eqb metric_type "disk" then
      if Py.ge value (inject_Z 95) then CRITICAL
      else if Py.ge value (inject_Z 85) then WARNING
      else if Py.ge value (inject_Z 70) then CAUTION else HEALTHY
    else if String.eqb metric_type "temperature" then
      if Py.ge value (inject_Z 100) then CRITICAL
      else if Py.ge value (inject_Z 85) then WARNING
      else if Py.ge value (inject_Z 70) then CAUTION else HEALTHY
    else if String.eqb metric_type "battery" then
      if Py.le value (inject_Z 10) then CRITICAL
      else if Py.le value (inject_Z 20) then WARNING
      else if Py.le value (inject_Z 50) then CAUTION else HEALTHY
    else HEALTHY.
Proof.
  unfold Monitor.get_status_and_color.
  change (getitem Monitor.THRESHOLDS "cpu_critical") with (inject_Z 90).
  change (getitem Monitor.THRESHOLDS "cpu_warning") with (inject_Z 80).
  change (getitem Monitor.THRESHOLDS "cpu_caution") with (inject_Z 60).
  change (getitem Monitor.THRESHOLDS "memory_critical") with (inject_Z 95).
  change (getitem Monitor.THRESHOLDS "memory_warning") with (inject_Z 85).
  change (getitem Monitor.THRESHOLDS "memory_caution") with (inject_Z 70).
  change (getitem Monitor.THRESHOLDS "disk_critical") with (inject_Z 95).
  change (getitem Monitor.THRESHOLDS "disk_warning") with (inject_Z 85).
  change (getitem Monitor.THRESHOLDS "disk_caution") with (inject_Z 70).
  change (getitem Monitor.THRESHOLDS "temp_critical") with (inject_Z 100).
  change (getitem Monitor.THRESHOLDS "temp_warning") with (inject_Z 85).
  change (getitem Monitor.THRESHOLDS "temp_caution") with (inject_Z 70).
  change (getitem Monitor.THRESHOLDS "battery_critical") with (inject_Z 10).
  change (getitem Monitor.THRESHOLDS "battery_warning") with (inject_Z 20).
  change (getitem Monitor.THRESHOLDS "battery_caution") with (inject_Z 50).
  repeat match goal with
         | |- context [if ?b then _ else _] => destruct b
         end; reflexivity.
Qed.

(** X3.  The band table of the terminal classifier.  CPU: healthy below
    60, caution from 60, warning from 80, critical from 90.  Memory and
    disk: 70, 85, 95.  Temperature: 70, 85, 100.  Battery, from below:
    critical up to 10, warning up to 20, caution up to 50, healthy above.
    Every cutoff belongs to the more severe band. *)
Theorem classifier_band_table :
  forall value : Q,
    Shape.ascending_bands 60 80 90 value
      (fst (Monitor.get_status_and_color "cpu" (Some value)))
    /\ Shape.ascending_bands 70 85 95 value
         (fst (Monitor.get_status_and_color "memory" (Some value)))
    /\ Shape.ascending_bands 70 85 95 value
         (fst (Monitor.get_status_and_color "disk" (Some value)))
    /\ Shape.ascending_bands 70 85 100 value
         (fst (Monitor.get_status_and_color "temperature" (Some value)))
    /\ Shape.descending_bands 50 20 10 value
         (fst (Monitor.get_status_and_color "battery" (Some value))).
Proof.
  intros value. rewrite !status_of_chain. cbn [String.eqb Ascii.eqb Bool.eqb].
  split; [|split; [|split; [|split]]];
    first [ apply (ascending_chain_bands 60 80 90); lia
          | apply (ascending_chain_bands 70 85 95); lia
          | apply (ascending_chain_bands 70 85 100); lia
          | apply (descending_chain_bands 50 20 10); lia ].
Qed.

(** A reading that stays within a battery cutoff still does after it
    drops. *)
Lemma le_antitone (v1 v2 c : Q) :
  v1 <= v2 -> Py.le v2 c = true -> Py.le v1 c = true.
Proof.
  rewrite !le_true_iff. intros H12 H2. now apply Qle_trans with v2.
Qed.

(** X4.  The battery is classified the other way round in both programs:
    a higher charge never gets a more severe band. *)
Theorem battery_classifier_antitone :
  forall v1 v2 : Q,
    v1 <= v2 ->
    (severity (fst (Monitor.get_status_and_color "battery" (Some v2)))
     <= severity (fst (Monitor.get_status_and_color "battery" (Some v1))))%nat
    /\ (severity (Gui.get_status_text "battery" (Some v2))
        <= severity (Gui.get_status_text "battery" (Some v1)))%nat.
Proof.
  intros v1 v2 Hle.
  assert (Hanti : forall c, Py.le v2 c = true -> Py.le v1 c = false -> False).
  { intros c H2 H1. rewrite (le_antitone v1 v2 c Hle H2) in H1. discriminate. }
  unfold Monitor.get_status_and_color, Gui.get_status_text; simpl.
  change (getitem Gui.THRESHOLDS ?k) with (getitem Monitor.THRESHOLDS k).
  split; split_tests; simpl; try lia; exfalso; eauto using Hanti.
Qed.

Lemma battery_classifier_antitone_witness :
  8 <= 45
  /\ (severity (fst (Monitor.get_status_and_color "battery" (Some 45%Q)))
      <= severity (fst (Monitor.get_status_and_color "battery" (Some 8%Q))))%nat.
Proof.
  assert (Hle : 8 <= 45) by (vm_compute; discriminate).
  exact (conj Hle (proj1 (battery_classifier_antitone 8 45 Hle))).
Defined.

(** X5.  The terminal classifier never pairs a status with the colour of
    another status, whatever the metric name and the value. *)
Theorem status_and_color_match :
  forall (metric_type : string) (value : option Q),
    snd (Monitor.get_status_and_color metric_type value)
    = Shape.color_of (fst (Monitor.get_status_and_color metric_type value)).
Proof.
  intros metric_type [v|]; [|reflexivity].
  unfold Monitor.get_status_and_color.
  repeat match goal with
         | |- context [if ?b then _ else _] => destruct b
         end; reflexivity.
Qed.

(** X6.  The GUI's colour routine follows the terminal classifier on all
    five metrics, temperature included: it picks the colour of the band
    the terminal monitor would report. *)
Theorem gui_color_follows_terminal_classifier :
  forall (metric_type : string) (value : option Q),
    In metric_type ["cpu"; "memory"; "disk"; "temperature"; "battery"] ->
    Gui.get_status_color metric_type value
    = Shape.color_of (fst (Monitor.get_status_and_color metric_type value)).
Proof.
  intros metric_type [v|] Hin; [|reflexivity].
  simpl in Hin.
  destruct Hin as [<- | [<- | [<- | [<- | [<- | []]]]]];
    unfold Monitor.get_status_and_color, Gui.get_status_color; simpl;
    change (getitem Gui.THRESHOLDS ?k) with (getitem Monitor.THRESHOLDS k);
    split_tests; reflexivity.
Qed.

Lemma gui_color_follows_terminal_classifier_witness :
  In "temperature" ["cpu"; "memory"; "disk"; "temperature"; "battery"]
  /\ Gui.get_status_color "temperature" (Some 90) = COLOR_WARNING.
Proof.
  assert (Hin : In "temperature"
                   ["cpu"; "memory"; "disk"; "temperature"; "battery"])
    by (right; right; right; left; reflexivity).
  exact (conj Hin
           (gui_color_follows_terminal_classifier "temperature" (Some 90) Hin)).
Defined.

(** X7.  The GUI's status text gives the band of the terminal classifier
    for cpu, memory, disk and battery, whatever the value; for a present
    temperature it says HEALTHY whatever the reading. *)
Theorem gui_status_text_against_terminal :
  forall value : option Q,
    Gui.get_status_text "cpu" value
    = fst (Monitor.get_status_and_color "cpu" value)
    /\ Gui.get_status_text "memory" value
       = fst (Monitor.get_status_and_color "memory" value)
    /\ Gui.get_status_text "disk" value
       = fst (Monitor.get_status_and_color "disk" value)
    /\ Gui.get_status_text "battery" value
       = fst (Monitor.get_status_and_color "battery" value)
    /\ (forall v : Q, Gui.get_status_text "temperature" (Some v) = HEALTHY).
Proof.
  intros value.
  repeat split; try reflexivity;
    symmetry; apply classifiers_agree_off_temperature; simpl; tauto.
Qed.

(** ** Windows and trends *)

Lemma last_slice_nil_iff {A : Type} (n : nat) (l : list A) :
  (0 < n)%nat -> Py.last_slice n l = [] <-> l = [].
Proof.
  intros Hn. split; [|intros ->; reflexivity].
  intros H. apply (f_equal (@List.length A)) in H.
  rewrite last_slice_length in H. simpl in H.
  destruct l; [reflexivity | simpl in H; lia].
Qed.

(** X8.  After construction the first refresh reports "Insufficient data"
    for CPU, memory and disk, and every later refresh reports one of
    Increasing, Decreasing, Stable for each of them, whatever was read. *)
Theorem only_first_refresh_lacks_trend :
  forall (d : disk_io) (n : net_io) (now : Q)
         (samples : list Monitor.sample) (s : Monitor.sample),
    match samples with
    | [] =>
        Monitor.cpu_trend
          (fst (Monitor.display_dashboard
                  (snd (Monitor.run (Monitor.init d n now) samples)) s))
        = InsufficientData
        /\ Monitor.mem_trend
             (fst (Monitor.display_dashboard
                     (snd (Monitor.run (Monitor.init d n now) samples)) s))
           = InsufficientData
        /\ Monitor.disk_trend
             (fst (Monitor.display_dashboard
                     (snd (Monitor.run (Monitor.init d n now) samples)) s))
           = InsufficientData
    | _ :: _ =>
        In (Monitor.cpu_trend
              (fst (Monitor.display_dashboard
                      (snd (Monitor.run (Monitor.init d n now) samples)) s)))
           [Increasing; Decreasing; Stable]
        /\ In (Monitor.mem_trend
                 (fst (Monitor.display_dashboard
                         (snd (Monitor.run (Monitor.init d n now) samples)) s)))
              [Increasing; Decreasing; Stable]
        /\ In (Monitor.disk_trend
                 (fst (Monitor.display_dashboard
                         (snd (Monitor.run (Monitor.init d n now) samples)) s)))
              [Increasing; Decreasing; Stable]
    end.
Proof.
  intros d n now samples s.
  destruct (run_tracks samples (Monitor.init d n now) [] [] [] [])
    as [Hmax (Hc & Hm & Hd & _)]; [repeat split|].
  change (Monitor.history_max (Monitor.init d n now)) with 5%nat in Hmax.
  rewrite Hmax in Hc, Hm, Hd. simpl app in Hc, Hm, Hd.
  set (self := snd (Monitor.run (Monitor.init d n now) samples)) in *.
  destruct (display_dashboard_values self s)
    as ((_ & Tc) & (_ & Tm) & (_ & Td) & _).
  assert (H3 : (3 <= Monitor.history_max self)%nat) by lia.
  rewrite Tc, Tm, Td.
  rewrite (trend_of_refresh self s "cpu" _ H3 eq_refl).
  rewrite (trend_of_refresh self s "memory" _ H3 eq_refl).
  rewrite (trend_of_refresh self s "disk" _ H3 eq_refl).
  change (Monitor.get (Monitor.health_history self) "cpu" [])
    with (Monitor.h_cpu (Monitor.health_history self)).
  change (Monitor.get (Monitor.health_history self) "memory" [])
    with (Monitor.h_memory (Monitor.health_history self)).
  change (Monitor.get (Monitor.health_history self) "disk" [])
    with (Monitor.h_disk (Monitor.health_history self)).
  rewrite Hc, Hm, Hd. clearbody self.
  destruct samples as [|s0 rest]; [repeat split|].
  assert (Hne : forall f : Monitor.sample -> Q,
             Py.last_slice 5 (map f (s0 :: rest)) <> []).
  { intros f H. apply last_slice_nil_iff in H; [discriminate | lia]. }
  repeat split;
    match goal with
    | |- In (match ?w with _ => _ end) _ =>
        destruct w eqn:E; [apply Hne in E; contradiction|]
    end; apply deadband_in_three.
Qed.








(** ** The GUI's refresh *)

Lemma update_all_tabs_state (self : Gui.state) (r : Gui.refresh) :
  snd (Gui.update_all_tabs self r)
  = Gui.mk_state (Gui.r_tab_disk_io r) (Gui.r_tab_net_io r)
                 (Gui.prev_time self).
Proof. reflexivity. Qed.

Lemma refresh_all_prev_time (rs : list Gui.refresh) :
  forall self : Gui.state,
    Gui.prev_time (snd (Gui.refresh_all self rs)) = Gui.prev_time self.
Proof.
  induction rs as [|r rs IH]; intros self; [reflexivity|].
  cbn [Gui.refresh_all].
  destruct (Gui.update_all_tabs self r) as [d self'] eqn:E.
  specialize (IH self').
  destruct (Gui.refresh_all self' rs) as [ds self'']. cbn [snd] in *.
  rewrite IH.
  change self' with (snd (d, self')). rewrite <- E.
  now rewrite update_all_tabs_state.
Qed.

(** X11.  The GUI never advances [prev_time].  After any number of
    refreshes the elapsed time of every rate is still counted from the
    construction of the window, while the counters it is compared with
    are the ones read last: the disk tab divides the bytes moved since the
    overview's reading, a moment earlier in the same refresh, by the whole
    time since construction, and so does the network tab. *)
Theorem gui_rates_divide_by_time_since_construction :
  forall (self : Gui.state) (rs : list Gui.refresh) (r : Gui.refresh),
    Gui.prev_time (snd (Gui.refresh_all self rs)) = Gui.prev_time self
    /\ Gui.read_speed
         (Gui.tab_disk
            (fst (Gui.update_all_tabs (snd (Gui.refresh_all self rs)) r)))
       = rate (read_bytes (Gui.r_tab_disk_io r))
              (read_bytes (Gui.r_overview_disk_io r))
              (Gui.r_tab_disk_time r - Gui.prev_time self)
    /\ Gui.write_speed
         (Gui.tab_disk
            (fst (Gui.update_all_tabs (snd (Gui.refresh_all self rs)) r)))
       = rate (write_bytes (Gui.r_tab_disk_io r))
              (write_bytes (Gui.r_overview_disk_io r))
              (Gui.r_tab_disk_time r - Gui.prev_time self)
    /\ Gui.download_speed
         (Gui.tab_net
            (fst (Gui.update_all_tabs (snd (Gui.refresh_all self rs)) r)))
       = rate (bytes_recv (Gui.r_tab_net_io r))
              (bytes_recv (Gui.r_overview_net_io r))
              (Gui.r_tab_net_time r - Gui.prev_time self)
    /\ Gui.upload_speed
         (Gui.tab_net
            (fst (Gui.update_all_tabs (snd (Gui.refresh_all self rs)) r)))
       = rate (bytes_sent (Gui.r_tab_net_io r))
              (bytes_sent (Gui.r_overview_net_io r))
              (Gui.r_tab_net_time r - Gui.prev_time self).
Proof.
  intros self rs r.
  pose proof (refresh_all_prev_time rs self) as Ht.
  split; [exact Ht|].
  unfold Gui.update_all_tabs, Gui.get_disk_metrics, Gui.get_network_metrics.
  cbn [fst snd Gui.tab_disk Gui.tab_net Gui.read_speed Gui.write_speed
       Gui.download_speed Gui.upload_speed Gui.prev_time Gui.prev_disk_io
       Gui.prev_net_io].
  rewrite Ht. repeat split.
Qed.

(** ** The CPU temperature *)

Lemma dict_get_some_nonempty {A : Type} (d : list (string * A))
      (key : string) (v : A) :
  dict_get d key = Some v -> d <> [].
Proof. destruct d; [discriminate | discriminate]. Qed.

(** The value of [dict_get] is stored in the dict under that key. *)
Lemma dict_get_in {A : Type} (d : list (string * A)) (key : string) (v : A) :
  dict_get d key = Some v -> In (key, v) d.
Proof.
  induction d as [|[k w] d IH]; [discriminate|]. simpl.
  destruct (String.eqb k key) eqn:E.
  - apply String.eqb_eq in E. intros [= ->]. left. now subst.
  - intros H. right. now apply IH.
Qed.

Lemma first_nonempty_none_iff (temps : list (string * list Q)) :
  Monitor.first_nonempty temps = None <-> Shape.all_empty temps.
Proof.
  unfold Shape.all_empty.
  induction temps as [|[k entries] temps IH]; simpl.
  - split; [constructor | reflexivity].
  - destruct entries as [|e entries].
    + rewrite IH. split; [now constructor | now inversion 1].
    + split; [discriminate | inversion 1; discriminate].
Qed.

Lemma first_nonempty_in (temps : list (string * list Q)) (t : Q) :
  Monitor.first_nonempty temps = Some t ->
  exists key rest, In (key, t :: rest) temps.
Proof.
  induction temps as [|[k entries] temps IH]; [discriminate|]. simpl.
  destruct entries as [|e entries].
  - intros H. destruct (IH H) as (key & rest & Hin).
    exists key, rest. now right.
  - intros [= ->]. exists k, entries. now left.
Qed.

(** The preferred sensors are tried in the same way on every system but
    macOS, which does not try [acpitz]. *)
Lemma get_cpu_temperature_cases
      (os_type : string) (temps : list (string * list Q)) :
  temps <> [] ->
  Monitor.get_cpu_temperature os_type (Returns temps)
  = match dict_get temps "coretemp" with
    | Some entries => Monitor.first_current entries
    | None =>
        if String.eqb os_type "Darwin"
        then Returns (Monitor.first_nonempty temps)
        else match dict_get temps "acpitz" with
             | Some entries => Monitor.first_current entries
             | None => Returns (Monitor.first_nonempty temps)
             end
    end.
Proof.
  intros Hne. destruct temps as [|kv temps]; [contradiction|].
  unfold Monitor.get_cpu_temperature.
  destruct (String.eqb os_type "Windows") eqn:W.
  - apply String.eqb_eq in W. subst os_type. reflexivity.
  - destruct (String.eqb os_type "Darwin"); reflexivity.
Qed.

Lemma coretemp_sensor_decides_aux
      (os_type : string) (temps : list (string * list Q)) (entries : list Q) :
  dict_get temps "coretemp" = Some entries ->
  Monitor.get_cpu_temperature os_type (Returns temps)
  = Monitor.first_current entries.
Proof.
  intros Hget.
  rewrite get_cpu_temperature_cases
    by exact (dict_get_some_nonempty temps "coretemp" entries Hget).
  now rewrite Hget.
Qed.

(** X14.  On every operating system a [coretemp] sensor wins: with a
    reading, its first reading is the CPU temperature, whatever other
    sensors there are; with an empty list of readings the lookup raises
    [IndexError], which the function's handler does not catch. *)
Theorem coretemp_sensor_decides :
  forall (os_type : string) (temps : list (string * list Q))
         (entries : list Q),
    dict_get temps "coretemp" = Some entries ->
    Monitor.get_cpu_temperature os_type (Returns temps)
    = match entries with
      | t :: _ => Returns (Some t)
      | [] => Raises IndexError
      end.
Proof.
  intros os_type temps entries Hget.
  rewrite (coretemp_sensor_decides_aux os_type temps entries Hget).
  destruct entries; reflexivity.
Qed.

Lemma coretemp_sensor_decides_witness :
  dict_get [("acpitz", [41]); ("coretemp", [55; 57])] "coretemp"
  = Some [55; 57]
  /\ Monitor.get_cpu_temperature "Linux"
       (Returns [("acpitz", [41]); ("coretemp", [55; 57])])
     = Returns (Some 55).
Proof.
  assert (H : dict_get [("acpitz", [41]); ("coretemp", [55; 57])] "coretemp"
              = Some [55; 57]) by reflexivity.
  exact (conj H (coretemp_sensor_decides "Linux" _ _ H)).
Defined.

(** X15.  When the sensors can be read, the function reports no
    temperature exactly when none of the preferred sensors of the system
    is present and no sensor at all has a reading. *)
Theorem no_temperature_iff :
  forall (os_type : string) (temps : list (string * list Q)),
    Monitor.get_cpu_temperature os_type (Returns temps) = Returns None
    <-> dict_get temps "coretemp" = None
        /\ (os_type = "Darwin" \/ dict_get temps "acpitz" = None)
        /\ Shape.all_empty temps.
Proof.
  intros os_type temps.
  destruct temps as [|kv temps'] eqn:Et.
  - simpl. split; [intros _ | reflexivity].
    repeat split; [now right | constructor].
  - rewrite <- Et. rewrite get_cpu_temperature_cases by (rewrite Et; discriminate).
    rewrite <- first_nonempty_none_iff.
    destruct (dict_get temps "coretemp") as [[|e es]|] eqn:Ec.
    + simpl. split; [discriminate | intros [H _]; discriminate].
    + simpl. split; [discriminate | intros [H _]; discriminate].
    + destruct (String.eqb os_type "Darwin") eqn:D.
      * apply String.eqb_eq in D.
        split; [intros [= H]; repeat split; [now left | exact H]
               | intros (_ & _ & H); now rewrite H].
      * apply String.eqb_neq in D.
        destruct (dict_get temps "acpitz") as [[|e es]|] eqn:Ea; simpl.
        -- split; [discriminate | intros (_ & [H | H] & _); [contradiction | discriminate]].
        -- split; [discriminate | intros (_ & [H | H] & _); [contradiction | discriminate]].
        -- split; [intros [= H]; repeat split; [now right | exact H]
                  | intros (_ & _ & H); now rewrite H].
Qed.

(** X16.  A temperature the function reports is always the first reading
    of one of the sensors [psutil] returned. *)
Theorem reported_temperature_is_a_first_reading :
  forall (os_type : string) (temps : list (string * list Q)) (t : Q),
    Monitor.get_cpu_temperature os_type (Returns temps) = Returns (Some t) ->
    exists key rest, In (key, t :: rest) temps.
Proof.
  intros os_type temps t.
  destruct temps as [|kv temps'] eqn:Et; [discriminate|].
  rewrite <- Et. rewrite get_cpu_temperature_cases by (rewrite Et; discriminate).
  assert (Hfirst : forall key entries,
             dict_get temps key = Some entries ->
             Monitor.first_current entries = Returns (Some t) ->
             exists key rest, In (key, t :: rest) temps).
  { intros key [|e es] Hget; [discriminate|].
    intros [= ->]. exists key, es. now apply dict_get_in. }
  destruct (dict_get temps "coretemp") as [entries|] eqn:Ec.
  - now apply (Hfirst "coretemp" entries).
  - destruct (String.eqb os_type "Darwin").
    + intros [= H]. now apply first_nonempty_in.
    + destruct (dict_get temps "acpitz") as [entries|] eqn:Ea.
      * now apply (Hfirst "acpitz" entries).
      * intros [= H]. now apply first_nonempty_in.
Qed.

Lemma reported_temperature_is_a_first_reading_witness :
  Monitor.get_cpu_temperature "Linux"
    (Returns [("nvme", []); ("k10temp", [48; 47])]) = Returns (Some 48)
  /\ exists key rest, In (key, 48 :: rest) [("nvme", []); ("k10temp", [48; 47])].
Proof.
  assert (H : Monitor.get_cpu_temperature "Linux"
                (Returns [("nvme", []); ("k10temp", [48; 47])])
              = Returns (Some 48)) by reflexivity.
  exact (conj H (reported_temperature_is_a_first_reading "Linux" _ 48 H)).
Defined.

(** X17.  When [get_cpu_temperature] raises.  An exception of
    [psutil.sensors_temperatures()] passes through unless it is an
    [OSError], an [AttributeError] or a [PermissionError]; and the function
    raises [IndexError] of its own exactly when the preferred sensor it
    finds first, [coretemp], or [acpitz] off macOS, has an empty list of
    readings. *)
Theorem get_cpu_temperature_raises_iff :
  forall (os_type : string) (sensors : outcome (list (string * list Q)))
         (e : exn),
    Monitor.get_cpu_temperature os_type sensors = Raises e
    <-> (sensors = Raises e
         /\ Monitor.caught_by_temperature_handler e = false)
        \/ (e = IndexError
            /\ exists temps,
                sensors = Returns temps
                /\ (dict_get temps "coretemp" = Some []
                    \/ (dict_get temps "coretemp" = None
                        /\ os_type <> "Darwin"
                        /\ dict_get temps "acpitz" = Some []))).
Proof.
  intros os_type [temps|e'] e.
  - split.
    + intros H. right.
      destruct temps as [|kv temps'] eqn:Et; [discriminate|].
      rewrite <- Et in *.
      rewrite get_cpu_temperature_cases in H by (rewrite Et; discriminate).
      destruct (dict_get temps "coretemp") as [[|c cs]|] eqn:Ec.
      * injection H as <-. split; [reflexivity|]. exists temps. tauto.
      * discriminate.
      * destruct (String.eqb os_type "Darwin") eqn:D; [discriminate|].
        apply String.eqb_neq in D.
        destruct (dict_get temps "acpitz") as [[|a l]|] eqn:Ea;
          try discriminate.
        injection H as <-. split; [reflexivity|]. exists temps. tauto.
    + intros [[H _] | (-> & temps' & [= <-] & H)]; [discriminate|].
      destruct H as [Hc | (Hc & D & Ha)].
      * now rewrite (coretemp_sensor_decides_aux os_type temps [] Hc).
      * rewrite get_cpu_temperature_cases
          by exact (dict_get_some_nonempty temps "acpitz" [] Ha).
        apply String.eqb_neq in D. now rewrite Hc, D, Ha.
  - simpl. destruct (Monitor.caught_by_temperature_handler e') eqn:C.
    + split; [discriminate|].
      intros [[[= ->] H] | (_ & temps & H & _)]; [congruence | discriminate].
    + split.
      * intros [= ->]. now left.
      * intros [[[= ->] _] | (_ & temps & H & _)];
          [reflexivity | discriminate].
Qed.

(** X18.  The GUI finds a CPU temperature exactly when the sensors can be
    read and [coretemp], or in its absence [acpitz], has a reading; every
    other sensor is ignored, and every exception, the empty reading list
    of a preferred sensor included, gives an absent temperature. *)
Theorem gui_temperature_iff :
  forall (cpu_avg : Q) (sensors : outcome (list (string * list Q))) (t : Q),
    Gui.temperature (Gui.get_cpu_metrics cpu_avg sensors) = Some t
    <-> exists temps rest,
          sensors = Returns temps
          /\ (dict_get temps "coretemp" = Some (t :: rest)
              \/ (dict_get temps "coretemp" = None
                  /\ dict_get temps "acpitz" = Some (t :: rest))).
Proof.
  intros cpu_avg [temps|e] t; cbn [Gui.get_cpu_metrics Gui.temperature].
  - destruct temps as [|kv temps'] eqn:Et.
    + split; [discriminate|].
      intros (temps0 & rest & [= <-] & [H | [_ H]]); discriminate.
    + rewrite <- Et. cbn [Gui.scan_keys].
      destruct (dict_get temps "coretemp") as [[|c cs]|] eqn:Ec.
      * split; [discriminate|].
        intros (temps0 & rest & [= <-] & [H | [H _]]); congruence.
      * split.
        -- intros [= ->]. exists temps, cs. tauto.
        -- intros (temps0 & rest & [= <-] & [H | [H _]]); congruence.
      * destruct (dict_get temps "acpitz") as [[|a l]|] eqn:Ea.
        -- split; [discriminate|].
           intros (temps0 & rest & [= <-] & [H | [_ H]]); congruence.
        -- split.
           ++ intros [= ->]. exists temps, l. tauto.
           ++ intros (temps0 & rest & [= <-] & [H | [_ H]]); congruence.
        -- split; [discriminate|].
           intros (temps0 & rest & [= <-] & [H | [_ H]]); congruence.
  - split; [discriminate|]. intros (temps & rest & H & _). discriminate.
Qed.

(** X19.  Off macOS the terminal monitor finds every temperature the GUI
    finds, and the same one.  (The converse fails: the terminal monitor
    also reads sensors of other names.) *)
Theorem terminal_finds_gui_temperature :
  forall (os_type : string) (cpu_avg : Q)
         (sensors : outcome (list (string * list Q))) (t : Q),
    os_type <> "Darwin" ->
    Gui.temperature (Gui.get_cpu_metrics cpu_avg sensors) = Some t ->
    Monitor.get_cpu_temperature os_type sensors = Returns (Some t).
Proof.
  intros os_type cpu_avg [temps|e] t D; cbn [Gui.get_cpu_metrics Gui.temperature];
    [|discriminate].
  destruct temps as [|kv temps'] eqn:Et; [discriminate|].
  rewrite <- Et. rewrite get_cpu_temperature_cases by (rewrite Et; discriminate).
  apply String.eqb_neq in D. rewrite D. cbn [Gui.scan_keys].
  destruct (dict_get temps "coretemp") as [[|c cs]|];
    [discriminate | now intros [= ->] |].
  destruct (dict_get temps "acpitz") as [[|a l]|];
    [discriminate | now intros [= ->] | discriminate].
Qed.

Lemma terminal_finds_gui_temperature_witness :
  "Linux" <> "Darwin"
  /\ Gui.temperature
       (Gui.get_cpu_metrics 12 (Returns [("nvme", [30]); ("acpitz", [44])]))
     = Some 44
  /\ Monitor.get_cpu_temperature "Linux"
       (Returns [("nvme", [30]); ("acpitz", [44])]) = Returns (Some 44).
Proof.
  assert (D : "Linux" <> "Darwin") by discriminate.
  assert (G : Gui.temperature
                (Gui.get_cpu_metrics 12
                   (Returns [("nvme", [30]); ("acpitz", [44])])) = Some 44)
    by reflexivity.
  exact (conj D (conj G
           (terminal_finds_gui_temperature "Linux" 12 _ 44 D G))).
Defined.

(** ** Heavy processes *)

(** The loop only ever appends to the list it was given. *)
Lemma scan_processes_extends (procs : list Monitor.proc_info) :
  forall acc : list Monitor.process_issue,
    exists added,
      Monitor.scan_processes procs acc = (acc ++ added)%list
      /\ Forall Shape.over_cutoff added.
Proof.
  induction procs as [|p procs IH]; intros acc; cbn [Monitor.scan_processes].
  - exists []. now rewrite app_nil_r.
  - change (getitem Monitor.THRESHOLDS "process_cpu_warning") with 40.
    change (getitem Monitor.THRESHOLDS "process_memory_warning") with 30.
    destruct (Monitor.p_cpu_percent p) as [cpu|];
      [|exists []; now rewrite app_nil_r].
    destruct (Py.gt cpu 40) eqn:Hc;
      destruct (Monitor.p_memory_percent p) as [memory|].
    + destruct (Py.gt memory 30) eqn:Hm.
      * destruct (IH ((acc ++ [Monitor.CPU_issue (Monitor.p_name p) cpu])
                        ++ [Monitor.Memory_issue (Monitor.p_name p) memory])%list)
          as (added & -> & Hadd).
        exists (Monitor.CPU_issue (Monitor.p_name p) cpu
                  :: Monitor.Memory_issue (Monitor.p_name p) memory :: added).
        split; [now rewrite <- !app_assoc|].
        apply gt_true_iff in Hc, Hm. now repeat constructor.
      * destruct (IH (acc ++ [Monitor.CPU_issue (Monitor.p_name p) cpu])%list)
          as (added & -> & Hadd).
        exists (Monitor.CPU_issue (Monitor.p_name p) cpu :: added).
        split; [now rewrite <- !app_assoc|].
        apply gt_true_iff in Hc. now constructor.
    + exists [Monitor.CPU_issue (Monitor.p_name p) cpu].
      split; [reflexivity|]. apply gt_true_iff in Hc. now repeat constructor.
    + destruct (Py.gt memory 30) eqn:Hm.
      * destruct (IH (acc ++ [Monitor.Memory_issue (Monitor.p_name p) memory])%list)
          as (added & -> & Hadd).
        exists (Monitor.Memory_issue (Monitor.p_name p) memory :: added).
        split; [now rewrite <- !app_assoc|].
        apply gt_true_iff in Hm. now constructor.
      * apply IH.
    + exists []. now rewrite app_nil_r.
Qed.

Lemma Forall_firstn {A : Type} (P : A -> Prop) (n : nat) (l : list A) :
  Forall P l -> Forall P (firstn n l).
Proof.
  intros H. revert n. induction H; intros [|n]; simpl; constructor; auto.
Qed.

(** X20.  [get_process_health] reports at most five issues, and every
    issue it reports has a figure above its cutoff: more than 40% CPU or
    more than 30% memory. *)
Theorem process_issues_bounded_and_over_cutoff :
  forall procs : list Monitor.proc_info,
    (List.length (Monitor.get_process_health procs) <= 5)%nat
    /\ Forall Shape.over_cutoff (Monitor.get_process_health procs).
Proof.
  intros procs. unfold Monitor.get_process_health. split.
  - apply firstn_le_length.
  - destruct (scan_processes_extends procs []) as (added & -> & Hadd).
    now apply Forall_firstn.
Qed.

Lemma scan_processes_readable (procs : list Monitor.proc_info) :
  Forall Shape.readable procs ->
  forall acc : list Monitor.process_issue,
    Monitor.scan_processes procs acc
    = (acc ++ flat_map Shape.issues_of procs)%list.
Proof.
  induction 1 as [|p procs [Hc Hm] _ IH]; intros acc;
    cbn [Monitor.scan_processes flat_map].
  - now rewrite app_nil_r.
  - change (getitem Monitor.THRESHOLDS "process_cpu_warning") with 40.
    change (getitem Monitor.THRESHOLDS "process_memory_warning") with 30.
    unfold Shape.issues_of.
    destruct (Monitor.p_cpu_percent p) as [cpu|]; [|contradiction].
    destruct (Monitor.p_memory_percent p) as [memory|]; [|contradiction].
    rewrite IH.
    destruct (Py.gt cpu 40); destruct (Py.gt memory 30);
      now rewrite <- ?app_assoc.
Qed.

(** X21.  When every process could be read, the report is the first five
    issues in the order of the process list, a process that is heavy on
    both counts giving its CPU issue and then its memory issue; the
    figures play no part in which five are kept. *)
Theorem process_issues_are_first_five :
  forall procs : list Monitor.proc_info,
    Forall Shape.readable procs ->
    Monitor.get_process_health procs
    = firstn 5 (flat_map Shape.issues_of procs).
Proof.
  intros procs H. unfold Monitor.get_process_health.
  now rewrite scan_processes_readable.
Qed.

Lemma process_issues_are_first_five_witness :
  Forall Shape.readable
    [Monitor.mk_proc "a" (Some 41) (Some 31);
     Monitor.mk_proc "b" (Some 99) (Some 2)]
  /\ Monitor.get_process_health
       [Monitor.mk_proc "a" (Some 41) (Some 31);
        Monitor.mk_proc "b" (Some 99) (Some 2)]
     = [Monitor.CPU_issue "a" 41; Monitor.Memory_issue "a" 31;
        Monitor.CPU_issue "b" 99].
Proof.
  assert (H : Forall Shape.readable
                [Monitor.mk_proc "a" (Some 41) (Some 31);
                 Monitor.mk_proc "b" (Some 99) (Some 2)])
    by (repeat constructor; discriminate).
  exact (conj H (process_issues_are_first_five _ H)).
Defined.

Lemma scan_processes_stops (before : list Monitor.proc_info)
      (p : Monitor.proc_info) (after : list Monitor.proc_info) :
  Monitor.p_cpu_percent p = None \/ Monitor.p_memory_percent p = None ->
  forall acc : list Monitor.process_issue,
    Monitor.scan_processes (before ++ p :: after) acc
    = Monitor.scan_processes (before ++ [p]) acc.
Proof.
  intros Hp. induction before as [|q before IH]; intros acc;
    cbn [app Monitor.scan_processes].
  - destruct (Monitor.p_cpu_percent p); [|reflexivity].
    destruct (Monitor.p_memory_percent p); [|reflexivity].
    destruct Hp; discriminate.
  - destruct (Monitor.p_cpu_percent q); [|reflexivity].
    destruct (Monitor.p_memory_percent q); [|reflexivity].
    apply IH.
Qed.

(** X22.  One process whose CPU or memory figure is [None] ends the scan
    silently: no process that comes after it in the list is reported,
    however heavy. *)
Theorem unreadable_process_hides_the_rest :
  forall (before : list Monitor.proc_info) (p : Monitor.proc_info)
         (after : list Monitor.proc_info),
    Monitor.p_cpu_percent p = None \/ Monitor.p_memory_percent p = None ->
    Monitor.get_process_health (before ++ p :: after)
    = Monitor.get_process_health (before ++ [p]).
Proof.
  intros before p after Hp. unfold Monitor.get_process_health.
  now rewrite (scan_processes_stops before p after Hp).
Qed.

Lemma unreadable_process_hides_the_rest_witness :
  (Monitor.p_cpu_percent (Monitor.mk_proc "denied" None None) = None
   \/ Monitor.p_memory_percent (Monitor.mk_proc "denied" None None) = None)
  /\ Monitor.get_process_health
       ([] ++ Monitor.mk_proc "denied" None None
           :: [Monitor.mk_proc "miner" (Some 100) (Some 90)])
     = [].
Proof.
  assert (H : Monitor.p_cpu_percent (Monitor.mk_proc "denied" None None) = None
              \/ Monitor.p_memory_percent (Monitor.mk_proc "denied" None None)
                 = None) by (left; reflexivity).
  exact (conj H
           (unreadable_process_hides_the_rest
              [] (Monitor.mk_proc "denied" None None)
              [Monitor.mk_proc "miner" (Some 100) (Some 90)] H)).
Defined.

Lemma scan_processes_app (procs more : list Monitor.proc_info) :
  forall acc : list Monitor.process_issue,
    exists added,
      Monitor.scan_processes (procs ++ more) acc
      = (Monitor.scan_processes procs acc ++ added)%list.
Proof.
  induction procs as [|p procs IH]; intros acc; cbn [app Monitor.scan_processes].
  - destruct (scan_processes_extends more acc) as (added & -> & _).
    now exists added.
  - destruct (Monitor.p_cpu_percent p);
      [|exists []; now rewrite app_nil_r].
    destruct (Monitor.p_memory_percent p);
      [|exists []; now rewrite app_nil_r].
    apply IH.
Qed.

(** X23.  Once the scan has found five issues the report is settled:
    processes further down the list never displace them, so the report is
    the first five issues found, not the five heaviest. *)
Theorem first_five_issues_are_final :
  forall procs more : list Monitor.proc_info,
    (5 <= List.length (Monitor.scan_processes procs []))%nat ->
    Monitor.get_process_health (procs ++ more)
    = Monitor.get_process_health procs.
Proof.
  intros procs more Hlen. unfold Monitor.get_process_health.
  destruct (scan_processes_app procs more []) as (added & ->).
  rewrite firstn_app.
  replace (5 - List.length (Monitor.scan_processes procs []))%nat
    with 0%nat by lia.
  now rewrite app_nil_r.
Qed.

Lemma first_five_issues_are_final_witness :
  (5 <= List.length (Monitor.scan_processes Scenario.three_heavy []))%nat
  /\ Monitor.get_process_health (Scenario.three_heavy ++ [Scenario.heaviest])
     = [Monitor.CPU_issue "a" 50; Monitor.Memory_issue "a" 40;
        Monitor.CPU_issue "b" 50; Monitor.Memory_issue "b" 40;
        Monitor.CPU_issue "c" 50].
Proof.
  assert (H : (5 <= List.length
                      (Monitor.scan_processes Scenario.three_heavy []))%nat)
    by (vm_compute; lia).
  exact (conj H
           (first_five_issues_are_final Scenario.three_heavy
              [Scenario.heaviest] H)).
Defined.

(** ** The uptime text *)

(** X24.  The uptime line shows the time since boot cut down to the whole
    minute: the hours stay below 24, the minutes below 60, and days,
    hours and minutes together are at most the true duration and less
    than a minute short of it.  This holds for a negative duration too (a
    boot time in the future), which shows as a negative day count with
    non-negative hours and minutes. *)
Theorem uptime_is_floored_to_the_minute :
  forall us : Z,
    (0 <= snd (fst (uptime_fields (timedelta_of_microseconds us))) < 24
     /\ 0 <= snd (uptime_fields (timedelta_of_microseconds us)) < 60
     /\ (fst (fst (uptime_fields (timedelta_of_microseconds us))) * 86400
         + snd (fst (uptime_fields (timedelta_of_microseconds us))) * 3600
         + snd (uptime_fields (timedelta_of_microseconds us)) * 60)
        * 1000000 <= us
     /\ us < (fst (fst (uptime_fields (timedelta_of_microseconds us))) * 86400
              + snd (fst (uptime_fields (timedelta_of_microseconds us))) * 3600
              + snd (uptime_fields (timedelta_of_microseconds us)) * 60 + 60)
             * 1000000)%Z.
Proof.
  intros us.
  unfold uptime_fields, timedelta_of_microseconds.
  cbn [fst snd days seconds].
  Z.to_euclidean_division_equations. lia.
Qed.

(** ** The usage bars *)

(** [int] of a number that is not negative is its floor. *)
Lemma py_int_floor (x : Q) :
  0 <= x ->
  (0 <= py_int x)%Z /\ inject_Z (py_int x) <= x /\ x < inject_Z (py_int x) + 1.
Proof.
  destruct x as [n d]. unfold Qle, Qlt, py_int. simpl.
  rewrite Z.mul_1_r. intros Hn.
  rewrite Z.quot_div_nonneg by lia.
  pose proof (Z.div_mod n (Zpos d) ltac:(lia)) as Hdm.
  pose proof (Z.mod_pos_bound n (Zpos d) ltac:(lia)) as Hb.
  pose proof (Z.div_pos n (Zpos d) Hn ltac:(lia)) as Hq.
  repeat split; nia.
Qed.

(** X25.  For a percentage from 0 to 100 the bar is 20 cells wide, one
    filled cell for every full 5%, the filled cells first. *)
Theorem bar_is_twenty_cells :
  forall percent : Q,
    0 <= percent -> percent <= 100 ->
    exists filled : nat,
      (filled <= 20)%nat
      /\ Gui.bar percent
         = (repeat Gui.Full filled ++ repeat Gui.Light (20 - filled))%list
      /\ List.length (Gui.bar percent) = 20%nat
      /\ inject_Z (Z.of_nat filled) * 5 <= percent
      /\ percent < (inject_Z (Z.of_nat filled) + 1) * 5.
Proof.
  intros percent H0 H100.
  assert (Hx : 0 <= percent / 5)
    by (unfold Qdiv; change (/ 5) with (1 # 5); lra).
  destruct (py_int_floor (percent / 5) Hx) as (Hk0 & Hlo & Hhi).
  unfold Gui.bar.
  set (k := py_int (percent / 5)) in *.
  unfold Qdiv in Hlo, Hhi. change (/ 5) with (1 # 5) in Hlo, Hhi.
  assert (Hk20 : (k <= 20)%Z).
  { apply Z.lt_succ_r. rewrite Zlt_Qlt.
    change (inject_Z (Z.succ 20)) with 21. lra. }
  exists (Z.to_nat k).
  rewrite Z2Nat.id by exact Hk0.
  replace (Z.to_nat (20 - k)) with (20 - Z.to_nat k)%nat by lia.
  repeat split; try lia; try lra.
  rewrite length_app, !repeat_length. lia.
Qed.

Lemma bar_is_twenty_cells_witness :
  0 <= 37 /\ 37 <= 100
  /\ exists filled : nat,
       (filled <= 20)%nat
       /\ Gui.bar 37
          = (repeat Gui.Full filled ++ repeat Gui.Light (20 - filled))%list
       /\ List.length (Gui.bar 37) = 20%nat
       /\ inject_Z (Z.of_nat filled) * 5 <= 37
       /\ 37 < (inject_Z (Z.of_nat filled) + 1) * 5.
Proof.
  assert (H0 : 0 <= 37) by (vm_compute; discriminate).
  assert (H1 : 37 <= 100) by (vm_compute; discriminate).
  exact (conj H0 (conj H1 (bar_is_twenty_cells 37 H0 H1))).
Defined.

(** ** Issues and recommendations *)

Lemma app_nil_iff {A : Type} (l l' : list A) :
  (l ++ l')%list = [] <-> l = [] /\ l' = [].
Proof.
  split; [apply app_eq_nil | intros [-> ->]; reflexivity].
Qed.

Lemma status_eqb_eq (a b : HealthStatus) : Monitor.status_eqb a b = true <-> a = b.
Proof. destruct a, b; simpl; split; congruence. Qed.

Lemma issue_if_unhealthy_nil (issue_type : string) (value : Q) :
  Monitor.issue_if_unhealthy issue_type value = []
  <-> fst (Monitor.get_status_and_color issue_type (Some value)) = HEALTHY.
Proof.
  unfold Monitor.issue_if_unhealthy. rewrite <- status_eqb_eq.
  destruct (Monitor.status_eqb _ HEALTHY); split; congruence.
Qed.

(** The healthy band of each metric, read off the cutoff chains. *)
Lemma healthy_band (value : Q) :
  (fst (Monitor.get_status_and_color "cpu" (Some value)) = HEALTHY
   <-> value < 60)
  /\ (fst (Monitor.get_status_and_color "memory" (Some value)) = HEALTHY
      <-> value < 70)
  /\ (fst (Monitor.get_status_and_color "disk" (Some value)) = HEALTHY
      <-> value < 70)
  /\ (fst (Monitor.get_status_and_color "temperature" (Some value)) = HEALTHY
      <-> value < 70)
  /\ (fst (Monitor.get_status_and_color "battery" (Some value)) = HEALTHY
      <-> 50 < value).
Proof.
  rewrite !status_of_chain. cbn [String.eqb Ascii.eqb Bool.eqb].
  split; [|split; [|split; [|split]]].
  - apply (ascending_chain_bands 60 80 90); lia.
  - apply (ascending_chain_bands 70 85 95); lia.
  - apply (ascending_chain_bands 70 85 95); lia.
  - apply (ascending_chain_bands 70 85 100); lia.
  - apply (descending_chain_bands 50 20 10); lia.
Qed.

(** X26.  The dashboard shows its "all systems healthy" banner, that is,
    the issue list is empty, exactly when the CPU is below 60%, memory and
    disk are below 70%, the temperature is absent or below 70 degrees, the
    battery is absent or above 50%, and the disk health check reported
    HEALTHY. *)
Theorem no_issues_iff_all_healthy :
  forall (s : Monitor.sample) (disk_health_status : HealthStatus),
    Monitor.all_issues s disk_health_status = []
    <-> Monitor.s_cpu_avg s < 60
        /\ Monitor.s_mem_percent s < 70
        /\ Monitor.s_disk_percent s < 70
        /\ match Monitor.s_temp s with
           | Some t => t < 70
           | None => True
           end
        /\ match Monitor.s_battery_percent s with
           | Some b => 50 < b
           | None => True
           end
        /\ disk_health_status = HEALTHY.
Proof.
  intros s dh. unfold Monitor.all_issues.
  rewrite !app_nil_iff.
  rewrite !issue_if_unhealthy_nil.
  rewrite (proj1 (healthy_band (Monitor.s_cpu_avg s))).
  rewrite (proj1 (proj2 (healthy_band (Monitor.s_mem_percent s)))).
  rewrite (proj1 (proj2 (proj2 (healthy_band (Monitor.s_disk_percent s))))).
  assert (Ht : match Monitor.s_temp s with
               | Some t => Monitor.issue_if_unhealthy "temperature" t
               | None => []
               end = []
               <-> match Monitor.s_temp s with
                   | Some t => t < 70
                   | None => True
                   end).
  { destruct (Monitor.s_temp s) as [t|]; [|tauto].
    rewrite issue_if_unhealthy_nil. apply healthy_band. }
  assert (Hb : match Monitor.s_battery_percent s with
               | Some b => Monitor.issue_if_unhealthy "battery" b
               | None => []
               end = []
               <-> match Monitor.s_battery_percent s with
                   | Some b => 50 < b
                   | None => True
                   end).
  { destruct (Monitor.s_battery_percent s) as [b|]; [|tauto].
    rewrite issue_if_unhealthy_nil. apply healthy_band. }
  assert (Hd : (if Monitor.status_eqb dh HEALTHY then []
                else [("disk_health", 0, dh)]) = []
               <-> dh = HEALTHY).
  { rewrite <- status_eqb_eq.
    destruct (Monitor.status_eqb dh HEALTHY); split; congruence. }
  rewrite Ht, Hb, Hd. tauto.
Qed.

(** Case analysis on the metric name, in the order the code tests it. *)
Ltac metric_cases m :=
  repeat match goal with
         | |- context [String.eqb m ?k] =>
             let E := fresh "E" in
             destruct (String.eqb m k) eqn:E;
             [apply String.eqb_eq in E; subst m
             |apply String.eqb_neq in E]
         end.

(** X27.  [get_recommendations] has advice only for a WARNING or a
    CRITICAL status of cpu, memory, disk, temperature, battery, disk_io,
    power_supply or disk_health, and for a WARNING of usb_ports.  A
    CAUTION issue, which the dashboard does list in its alert, therefore
    comes with no recommendation at all, and so does a CRITICAL usb_ports
    status. *)
Theorem recommendations_nonempty_iff :
  forall (metric_type : string) (value : Q) (status : HealthStatus),
    Monitor.get_recommendations metric_type value status <> []
    <-> (In metric_type
           ["cpu"; "memory"; "disk"; "temperature"; "battery";
            "disk_io"; "power_supply"; "disk_health"]
         /\ (status = CRITICAL \/ status = WARNING))
        \/ (metric_type = "usb_ports" /\ status = WARNING).
Proof.
  intros m v st. unfold Monitor.get_recommendations.
  destruct st;
    cbn [Monitor.status_in existsb Monitor.status_eqb orb];
    rewrite ?andb_true_r, ?andb_false_r;
    metric_cases m; cbn [app];
    (split;
     [ intros H;
       first [ exfalso; apply H; reflexivity
             | left; split; [simpl; tauto | tauto]
             | right; split; reflexivity ]
     | intros [[Hin Hst] | [Hm Hst]];
       first [ discriminate
             | destruct Hst; discriminate
             | simpl in Hin; intuition congruence
             | congruence ] ]).
Qed.

(** X28.  The cutoff 10 that [get_recommendations] has written out for
    the battery is the critical cutoff of the classifier: for a battery
    issue as the dashboard raises it, the advice to save work and shut
    down is given exactly when the status is CRITICAL. *)
Theorem battery_shutdown_advice_iff_critical :
  forall b : Q,
    In Monitor.CRITICAL_Save_work_and_shutdown_now
       (Monitor.get_recommendations "battery" b
          (fst (Monitor.get_status_and_color "battery" (Some b))))
    <-> fst (Monitor.get_status_and_color "battery" (Some b)) = CRITICAL.
Proof.
  intros b. rewrite status_of_chain. cbn [String.eqb Ascii.eqb Bool.eqb].
  unfold Monitor.get_recommendations.
  cbn [String.eqb Ascii.eqb Bool.eqb andb].
  change (inject_Z 10) with 10.
  destruct (Py.le b 10) eqn:E10; cbn.
  - split; [reflexivity | intros _; tauto].
  - destruct (Py.le b (inject_Z 20)); cbn.
    + split; [intros [H | [H | [H | []]]]; discriminate | discriminate].
    + destruct (Py.le b (inject_Z 50)); cbn;
        (split; [intros [] | discriminate]).
Qed.
